(** * I2C_LCD: HD44780 character display behind a PCF8574 expander

    A shallow embedding of [I2C_LCD/src/I2C_LCD.c] (with the constants and
    the file-scope variables of [I2C_LCD/I2C_LCD.h] and the transport
    interface declared in [I2C/src/I2C.h]), and the properties of the
    driver stated over it.

    Every [uint8_t] is a [Z] in [0, 256); C's integer promotions are
    followed: the operands of [&], [|], [<<], [+] and [-] are promoted to
    [int], the arithmetic is done on [Z], and the value is brought back
    to eight bits ([u8]) exactly where the C code stores it into a
    [uint8_t] object or passes it as a [uint8_t] argument. *)

From Stdlib Require Import ZArith List Lia Bool.
From stdpp Require Import base list vector.
Import ListNotations.

#[local] Open Scope Z_scope.

(** ** Eight-bit values *)

Definition u8 (x : Z) : Z := x mod 256.

Definition is_u8 (x : Z) : Prop := 0 <= x < 256.

(** C truth value of a [uint8_t] used as a condition. *)
Definition truthy (x : Z) : bool := negb (x =? 0).

(** ** Constants of I2C_LCD.h and I2C.h *)

Definition I2C_WRITE : Z := 0.

Definition I2C_LCD_ADDRESS : Z := 0x4E.

Definition I2C_LCD_RS : Z := 0x01.
Definition I2C_LCD_RW : Z := 0x02.
Definition I2C_LCD_E : Z := 0x04.
Definition I2C_LCD_BL : Z := 0x08.

Definition I2C_LCD_CLEARDISPLAY : Z := 0x01.
Definition I2C_LCD_RETURNHOME : Z := 0x02.
Definition I2C_LCD_ENTRYMODESET : Z := 0x04.
Definition I2C_LCD_DISPLAYCONTROL : Z := 0x08.
Definition I2C_LCD_CURSORSHIFT : Z := 0x10.
Definition I2C_LCD_FUNCTIONSET : Z := 0x20.
Definition I2C_LCD_SETCGRAMADDR : Z := 0x40.
Definition I2C_LCD_SETDDRAMADDR : Z := 0x80.

Definition I2C_LCD_ENTRYRIGHT : Z := 0x00.
Definition I2C_LCD_ENTRYLEFT : Z := 0x02.
Definition I2C_LCD_ENTRYSHIFTINCREMENT : Z := 0x01.
Definition I2C_LCD_ENTRYSHIFTDECREMENT : Z := 0x00.

Definition I2C_LCD_DISPLAY : Z := 0x04.
Definition I2C_LCD_CURSOR : Z := 0x02.
Definition I2C_LCD_BLINK : Z := 0x01.

Definition I2C_LCD_DISPLAYMOVE : Z := 0x08.
Definition I2C_LCD_CURSORMOVE : Z := 0x00.
Definition I2C_LCD_MOVERIGHT : Z := 0x04.
Definition I2C_LCD_MOVELEFT : Z := 0x00.

Definition I2C_LCD_8BITMODE : Z := 0x10.
Definition I2C_LCD_4BITMODE : Z := 0x00.
Definition I2C_LCD_2LINE : Z := 0x08.
Definition I2C_LCD_1LINE : Z := 0x00.
Definition I2C_LCD_5x10DOTS : Z := 0x04.
Definition I2C_LCD_5x8DOTS : Z := 0x00.

Definition I2C_LCD_ON : Z := 0xFF.
Definition I2C_LCD_OFF : Z := 0x00.

(** ** Driver state: the file-scope variables of I2C_LCD.h *)

Record LcdState : Type := mkLcd {
  backlight : Z;
  numlines : Z;
  numcols : Z;
  displayfunction : Z;
  displaycontrol : Z;
  displaymode : Z;
  row_offsets : vec Z 4
}.

(** Objects with static storage duration start zeroed. *)
Definition lcd_reset : LcdState :=
  mkLcd 0 0 0 0 0 0 [# 0; 0; 0; 0].

Definition set_backlight (v : Z) (s : LcdState) : LcdState :=
  mkLcd v (numlines s) (numcols s) (displayfunction s) (displaycontrol s)
        (displaymode s) (row_offsets s).

Definition set_numlines (v : Z) (s : LcdState) : LcdState :=
  mkLcd (backlight s) v (numcols s) (displayfunction s) (displaycontrol s)
        (displaymode s) (row_offsets s).

Definition set_numcols (v : Z) (s : LcdState) : LcdState :=
  mkLcd (backlight s) (numlines s) v (displayfunction s) (displaycontrol s)
        (displaymode s) (row_offsets s).

Definition set_displayfunction (v : Z) (s : LcdState) : LcdState :=
  mkLcd (backlight s) (numlines s) (numcols s) v (displaycontrol s)
        (displaymode s) (row_offsets s).

Definition set_displaycontrol (v : Z) (s : LcdState) : LcdState :=
  mkLcd (backlight s) (numlines s) (numcols s) (displayfunction s) v
        (displaymode s) (row_offsets s).

Definition set_displaymode (v : Z) (s : LcdState) : LcdState :=
  mkLcd (backlight s) (numlines s) (numcols s) (displayfunction s)
        (displaycontrol s) v (row_offsets s).

Definition set_row_offset (i : fin 4) (v : Z) (s : LcdState) : LcdState :=
  mkLcd (backlight s) (numlines s) (numcols s) (displayfunction s)
        (displaycontrol s) (displaymode s) (vinsert i v (row_offsets s)).

(** [row_offsets[i]] for an [int] index: defined inside the array only. *)
Definition row_offsets_at (s : LcdState) (i : Z) : option Z :=
  if 0 <=? i then vec_to_list (row_offsets s) !! Z.to_nat i else None.

(** [(v >= max) ? max : v], the limiting expression of
    [I2C_LCD_setCursorWOI2C]. *)
Definition limit (v max : Z) : Z := if max <=? v then max else v.

(** ** What the driver does to the outside: calls into the I2C master
    (I2C.h) and into util/delay.h, in program order. *)

Inductive BusEvent : Type :=
| EvStartWait (addr : Z)
| EvWrite (data : Z)
| EvStop
| EvDelayUs (us : Z)
| EvDelayMs (ms : Z).

Record World : Type := mkWorld {
  lcd : LcdState;
  bus : list BusEvent
}.

(** Result of running a driver routine. *)
Inductive outcome (A : Type) : Type :=
| Done (a : A) (w : World)
| Undefined      (* an array is read outside its bounds *)
| OutOfFuel.     (* the loop has not finished within the given fuel *)

Arguments Done {A} a w.
Arguments Undefined {A}.
Arguments OutOfFuel {A}.

Definition Drv (A : Type) : Type := World -> outcome A.

Definition ret {A : Type} (a : A) : Drv A := fun w => Done a w.

Definition bind {A B : Type} (m : Drv A) (k : A -> Drv B) : Drv B :=
  fun w =>
    match m w with
    | Done a w' => k a w'
    | Undefined => Undefined
    | OutOfFuel => OutOfFuel
    end.

Notation "x <- m ;; k" := (bind m (fun x => k))
  (at level 100, m at next level, right associativity).
Notation "m ;; k" := (bind m (fun _ => k))
  (at level 100, right associativity).

Definition undefined {A : Type} : Drv A := fun _ => Undefined.

Definition out_of_fuel {A : Type} : Drv A := fun _ => OutOfFuel.

Definition get {A : Type} (f : LcdState -> A) : Drv A :=
  fun w => Done (f (lcd w)) w.

Definition modify (f : LcdState -> LcdState) : Drv unit :=
  fun w => Done tt (mkWorld (f (lcd w)) (bus w)).

Definition emit (e : BusEvent) : World -> World :=
  fun w => mkWorld (lcd w) (bus w ++ [e]).

(** ** The driver, I2C_LCD.c *)

Section Driver.

(** The I2C master of I2C.h is implemented outside this driver.  A call
    into it is recorded on the bus log, and the [uint8_t] it returns is
    whatever the transport answers: [status log] is the value returned by
    the call that ends the log [log]. *)
Variable status : list BusEvent -> Z.

Definition I2C_startWait (addr : Z) : Drv Z :=
  fun w => let w' := emit (EvStartWait addr) w in Done (status (bus w')) w'.

Definition I2C_write (data : Z) : Drv Z :=
  fun w => let w' := emit (EvWrite data) w in Done (status (bus w')) w'.

Definition I2C_stop : Drv unit :=
  fun w => Done tt (emit EvStop w).

Definition _delay_us (us : Z) : Drv unit :=
  fun w => Done tt (emit (EvDelayUs us) w).

Definition _delay_ms (ms : Z) : Drv unit :=
  fun w => Done tt (emit (EvDelayMs ms) w).

Definition I2C_LCD_push (i2c_data : Z) : Drv unit :=
  bl <- get backlight ;;
  I2C_write (u8 (Z.lor (Z.lor (Z.land i2c_data (Z.lnot I2C_LCD_BL)) I2C_LCD_E)
                       (if truthy bl then I2C_LCD_BL else 0x00))) ;;
  bl <- get backlight ;;
  I2C_write (u8 (Z.lor (Z.land (Z.land i2c_data (Z.lnot I2C_LCD_BL))
                               (Z.lnot I2C_LCD_E))
                       (if truthy bl then I2C_LCD_BL else 0x00))) ;;
  _delay_us 100.

Definition I2C_LCD_command4bit (command : Z) : Drv unit :=
  I2C_LCD_push (u8 (Z.land command 0xF0)) ;;
  I2C_LCD_push (u8 (Z.shiftl command 4)).

Definition I2C_LCD_command8bit (command : Z) : Drv unit :=
  I2C_LCD_push (u8 (Z.land command 0xF0)).

Definition I2C_LCD_write (c : Z) : Drv unit :=
  I2C_LCD_push (u8 (Z.lor (Z.land c 0xF0) I2C_LCD_RS)) ;;
  I2C_LCD_push (u8 (Z.lor (Z.shiftl c 4) I2C_LCD_RS)).

Definition I2C_LCD_setRowOffsets (row1 row2 row3 row4 : Z) : Drv unit :=
  modify (set_row_offset 0%fin row1) ;;
  modify (set_row_offset 1%fin row2) ;;
  modify (set_row_offset 2%fin row3) ;;
  modify (set_row_offset 3%fin row4).

Definition I2C_LCD_init (cols lines : Z) : Drv unit :=
  modify (set_backlight I2C_LCD_ON) ;;
  _delay_ms 40 ;;
  I2C_startWait (u8 (Z.land I2C_LCD_ADDRESS (Z.lnot I2C_WRITE))) ;;
  I2C_LCD_command8bit (u8 (Z.lor I2C_LCD_FUNCTIONSET I2C_LCD_8BITMODE)) ;;
  _delay_us 4500 ;;
  I2C_LCD_command8bit (u8 (Z.lor I2C_LCD_FUNCTIONSET I2C_LCD_8BITMODE)) ;;
  _delay_us 150 ;;
  I2C_LCD_command8bit (u8 (Z.lor I2C_LCD_FUNCTIONSET I2C_LCD_8BITMODE)) ;;
  I2C_LCD_command8bit (u8 (Z.lor I2C_LCD_FUNCTIONSET I2C_LCD_4BITMODE)) ;;
  (if 1 <? lines
   then df <- get displayfunction ;;
        modify (set_displayfunction (u8 (Z.lor df I2C_LCD_2LINE)))
   else ret tt) ;;
  modify (set_numlines lines) ;;
  modify (set_numcols cols) ;;
  I2C_LCD_setRowOffsets (u8 0x00) (u8 0x40) (u8 (0x00 + cols))
                        (u8 (0x40 + cols)) ;;
  df <- get displayfunction ;;
  I2C_LCD_command4bit (u8 (Z.lor I2C_LCD_FUNCTIONSET df)) ;;
  modify (set_displaycontrol I2C_LCD_DISPLAY) ;;
  dc <- get displaycontrol ;;
  I2C_LCD_command4bit (u8 (Z.lor I2C_LCD_DISPLAYCONTROL dc)) ;;
  I2C_LCD_command4bit I2C_LCD_CLEARDISPLAY ;;
  modify (set_displaymode
            (u8 (Z.lor I2C_LCD_ENTRYLEFT I2C_LCD_ENTRYSHIFTDECREMENT))) ;;
  dm <- get displaymode ;;
  I2C_LCD_command4bit (u8 (Z.lor I2C_LCD_ENTRYMODESET dm)) ;;
  I2C_stop.

(** The loop of [I2C_LCD_print]: [i] is the [uint8_t] counter, [c] the
    character array; one unit of fuel per evaluation of the loop test. *)
Fixpoint I2C_LCD_print_loop (fuel : nat) (c : list Z) (i : Z) : Drv unit :=
  match fuel with
  | O => out_of_fuel
  | S fuel' =>
      match c !! Z.to_nat i with
      | None => undefined
      | Some ch =>
          if ch =? 0 then ret tt
          else I2C_LCD_write (u8 ch) ;;
               I2C_LCD_print_loop fuel' c (u8 (i + 1))
      end
  end.

Definition I2C_LCD_print (fuel : nat) (c : list Z) : Drv unit :=
  I2C_startWait (u8 (Z.land I2C_LCD_ADDRESS (Z.lnot I2C_WRITE))) ;;
  I2C_LCD_print_loop fuel c 0 ;;
  I2C_stop.

Definition I2C_LCD_printChar (c : Z) : Drv unit :=
  I2C_startWait (u8 (Z.land I2C_LCD_ADDRESS (Z.lnot I2C_WRITE))) ;;
  I2C_LCD_write (u8 c) ;;
  I2C_stop.

Definition I2C_LCD_setCursorWOI2C (col row : Z) : Drv unit :=
  nc <- get numcols ;;
  let col := limit col nc in
  nl <- get numlines ;;
  let row := limit row nl in
  ro <- get (fun s => row_offsets_at s (row - 1)) ;;
  match ro with
  | None => undefined
  | Some off =>
      I2C_LCD_command4bit (u8 (Z.lor I2C_LCD_SETDDRAMADDR ((col - 1) + off)))
  end.

Definition I2C_LCD_setCursor (col row : Z) : Drv unit :=
  I2C_startWait (u8 (Z.land I2C_LCD_ADDRESS (Z.lnot I2C_WRITE))) ;;
  I2C_LCD_setCursorWOI2C col row ;;
  I2C_stop.

Definition I2C_LCD_cursor (state : Z) : Drv unit :=
  dc <- get displaycontrol ;;
  modify (set_displaycontrol (u8 (Z.land dc (Z.lnot I2C_LCD_CURSOR)))) ;;
  dc <- get displaycontrol ;;
  modify (set_displaycontrol
            (u8 (Z.lor dc (if truthy state then I2C_LCD_CURSOR else 0)))) ;;
  I2C_startWait (u8 (Z.land I2C_LCD_ADDRESS (Z.lnot I2C_WRITE))) ;;
  dc <- get displaycontrol ;;
  I2C_LCD_command4bit (u8 (Z.lor I2C_LCD_DISPLAYCONTROL dc)) ;;
  I2C_stop.

Definition I2C_LCD_blink (state : Z) : Drv unit :=
  dc <- get displaycontrol ;;
  modify (set_displaycontrol (u8 (Z.land dc (Z.lnot I2C_LCD_BLINK)))) ;;
  dc <- get displaycontrol ;;
  modify (set_displaycontrol
            (u8 (Z.lor dc (if truthy state then I2C_LCD_BLINK else 0)))) ;;
  I2C_startWait (u8 (Z.land I2C_LCD_ADDRESS (Z.lnot I2C_WRITE))) ;;
  dc <- get displaycontrol ;;
  I2C_LCD_command4bit (u8 (Z.lor I2C_LCD_DISPLAYCONTROL dc)) ;;
  I2C_stop.

Definition I2C_LCD_display (state : Z) : Drv unit :=
  dc <- get displaycontrol ;;
  modify (set_displaycontrol (u8 (Z.land dc (Z.lnot I2C_LCD_DISPLAY)))) ;;
  dc <- get displaycontrol ;;
  modify (set_displaycontrol
            (u8 (Z.lor dc (if truthy state then I2C_LCD_DISPLAY else 0)))) ;;
  I2C_startWait (u8 (Z.land I2C_LCD_ADDRESS (Z.lnot I2C_WRITE))) ;;
  dc <- get displaycontrol ;;
  I2C_LCD_command4bit (u8 (Z.lor I2C_LCD_DISPLAYCONTROL dc)) ;;
  I2C_stop.

Definition I2C_LCD_backlight (state : Z) : Drv unit :=
  modify (set_backlight state) ;;
  I2C_startWait (u8 (Z.land I2C_LCD_ADDRESS (Z.lnot I2C_WRITE))) ;;
  dc <- get displaycontrol ;;
  I2C_LCD_command4bit (u8 (Z.lor I2C_LCD_DISPLAYCONTROL dc)) ;;
  I2C_stop.

Definition I2C_LCD_home : Drv unit :=
  I2C_LCD_setCursor 1 1.

Definition I2C_LCD_clear : Drv unit :=
  I2C_startWait (u8 (Z.land I2C_LCD_ADDRESS (Z.lnot I2C_WRITE))) ;;
  I2C_LCD_command4bit I2C_LCD_CLEARDISPLAY ;;
  I2C_stop.

Definition I2C_LCD_scrollDisplayLeft : Drv unit :=
  I2C_startWait (u8 (Z.land I2C_LCD_ADDRESS (Z.lnot I2C_WRITE))) ;;
  I2C_LCD_command4bit
    (u8 (Z.lor (Z.lor I2C_LCD_CURSORSHIFT I2C_LCD_DISPLAYMOVE)
               I2C_LCD_MOVELEFT)) ;;
  I2C_stop.

Definition I2C_LCD_scrollDisplayRight : Drv unit :=
  I2C_startWait (u8 (Z.land I2C_LCD_ADDRESS (Z.lnot I2C_WRITE))) ;;
  I2C_LCD_command4bit
    (u8 (Z.lor (Z.lor I2C_LCD_CURSORSHIFT I2C_LCD_DISPLAYMOVE)
               I2C_LCD_MOVERIGHT)) ;;
  I2C_stop.

Definition I2C_LCD_leftToRight : Drv unit :=
  dm <- get displaymode ;;
  modify (set_displaymode (u8 (Z.lor dm I2C_LCD_ENTRYLEFT))) ;;
  I2C_startWait (u8 (Z.land I2C_LCD_ADDRESS (Z.lnot I2C_WRITE))) ;;
  dm <- get displaymode ;;
  I2C_LCD_command4bit (u8 (Z.lor I2C_LCD_ENTRYMODESET dm)) ;;
  I2C_stop.

Definition I2C_LCD_rightToLeft : Drv unit :=
  dm <- get displaymode ;;
  modify (set_displaymode (u8 (Z.land dm (Z.lnot I2C_LCD_ENTRYLEFT)))) ;;
  I2C_startWait (u8 (Z.land I2C_LCD_ADDRESS (Z.lnot I2C_WRITE))) ;;
  dm <- get displaymode ;;
  I2C_LCD_command4bit (u8 (Z.lor I2C_LCD_ENTRYMODESET dm)) ;;
  I2C_stop.

Definition I2C_LCD_cursorFixPosition (state : Z) : Drv unit :=
  dm <- get displaymode ;;
  modify (set_displaymode
            (u8 (Z.land dm (Z.lnot I2C_LCD_ENTRYSHIFTINCREMENT)))) ;;
  dm <- get displaymode ;;
  modify (set_displaymode
            (u8 (Z.lor dm (if truthy state
                           then I2C_LCD_ENTRYSHIFTINCREMENT else 0)))) ;;
  I2C_startWait (u8 (Z.land I2C_LCD_ADDRESS (Z.lnot I2C_WRITE))) ;;
  dm <- get displaymode ;;
  I2C_LCD_command4bit (u8 (Z.lor I2C_LCD_ENTRYMODESET dm)) ;;
  I2C_stop.

(** The loop of [I2C_LCD_createChar]: [i] is the [uint8_t] counter; one
    unit of fuel per evaluation of the test [i < 8]. *)
Fixpoint I2C_LCD_createChar_loop (fuel : nat) (charmap : list Z) (i : Z)
  : Drv unit :=
  match fuel with
  | O => out_of_fuel
  | S fuel' =>
      if i <? 8 then
        match charmap !! Z.to_nat i with
        | None => undefined
        | Some row =>
            I2C_LCD_write (u8 (Z.land row 0x1F)) ;;
            I2C_LCD_createChar_loop fuel' charmap (u8 (i + 1))
        end
      else ret tt
  end.

(** The test is evaluated nine times: eight rows and the exit. *)
Definition I2C_LCD_createChar (location : Z) (charmap : list Z) : Drv unit :=
  let location := u8 (Z.land location 0x7) in
  I2C_startWait (u8 (Z.land I2C_LCD_ADDRESS (Z.lnot I2C_WRITE))) ;;
  I2C_LCD_command4bit (u8 (Z.lor I2C_LCD_SETCGRAMADDR (Z.shiftl location 3))) ;;
  I2C_LCD_createChar_loop 9 charmap 0 ;;
  I2C_stop.

End Driver.

(** ** The public interface of I2C_LCD.h as data *)

Inductive Op : Type :=
| OpInit (cols lines : Z)
| OpClear
| OpHome
| OpSetCursor (col row : Z)
| OpSetCursorWOI2C (col row : Z)
| OpPrint (str : list Z)
| OpPrintChar (c : Z)
| OpDisplay (state : Z)
| OpBacklight (state : Z)
| OpBlink (state : Z)
| OpCursor (state : Z)
| OpLeftToRight
| OpRightToLeft
| OpScrollDisplayLeft
| OpScrollDisplayRight
| OpCursorFixPosition (state : Z)
| OpCreateChar (location : Z) (charmap : list Z)
| OpWrite (c : Z)
| OpCommand4bit (cmd : Z)
| OpCommand8bit (cmd : Z)
| OpSetRowOffsets (row1 row2 row3 row4 : Z)
| OpPush (i2c_data : Z).

Definition run_op (status : list BusEvent -> Z) (fuel : nat) (op : Op)
  : Drv unit :=
  match op with
  | OpInit cols lines => I2C_LCD_init status cols lines
  | OpClear => I2C_LCD_clear status
  | OpHome => I2C_LCD_home status
  | OpSetCursor col row => I2C_LCD_setCursor status col row
  | OpSetCursorWOI2C col row => I2C_LCD_setCursorWOI2C status col row
  | OpPrint str => I2C_LCD_print status fuel str
  | OpPrintChar c => I2C_LCD_printChar status c
  | OpDisplay state => I2C_LCD_display status state
  | OpBacklight state => I2C_LCD_backlight status state
  | OpBlink state => I2C_LCD_blink status state
  | OpCursor state => I2C_LCD_cursor status state
  | OpLeftToRight => I2C_LCD_leftToRight status
  | OpRightToLeft => I2C_LCD_rightToLeft status
  | OpScrollDisplayLeft => I2C_LCD_scrollDisplayLeft status
  | OpScrollDisplayRight => I2C_LCD_scrollDisplayRight status
  | OpCursorFixPosition state => I2C_LCD_cursorFixPosition status state
  | OpCreateChar location charmap => I2C_LCD_createChar status location charmap
  | OpWrite c => I2C_LCD_write status c
  | OpCommand4bit cmd => I2C_LCD_command4bit status cmd
  | OpCommand8bit cmd => I2C_LCD_command8bit status cmd
  | OpSetRowOffsets row1 row2 row3 row4 =>
      I2C_LCD_setRowOffsets row1 row2 row3 row4
  | OpPush i2c_data => I2C_LCD_push status i2c_data
  end.

(** ** The transport's blocking start *)

(** Modelled from the spec: the body of [I2C_startWait] is in I2C.c, which
    is not among the sources; I2C.h only declares it ("start a
    communication with a loop to wait until the bus is free").  Section 4.1:
    "like start, but retries the start condition in a bounded or unbounded
    spin-loop until the addressed device acknowledges; returns success once
    acknowledged".  [ack n] tells whether the device acknowledges the start
    condition number [n]; the result is the number of start conditions
    issued when the call returns, [None] while it is still spinning. *)
Fixpoint I2C_startWait_spin (ack : nat -> bool) (fuel n : nat) : option nat :=
  match fuel with
  | O => None
  | S fuel' =>
      if ack n then Some (S n) else I2C_startWait_spin ack fuel' (S n)
  end.

(** ** Bus logs of the encoding layer *)

(** The address byte every transaction is opened with. *)
Definition lcd_addr : Z := u8 (Z.land I2C_LCD_ADDRESS (Z.lnot I2C_WRITE)).

(** Expander byte with the enable line high, as [I2C_LCD_push] builds it. *)
Definition strobe_hi (bl d : Z) : Z :=
  u8 (Z.lor (Z.lor (Z.land d (Z.lnot I2C_LCD_BL)) I2C_LCD_E)
            (if truthy bl then I2C_LCD_BL else 0x00)).

(** Expander byte with the enable line low. *)
Definition strobe_lo (bl d : Z) : Z :=
  u8 (Z.lor (Z.land (Z.land d (Z.lnot I2C_LCD_BL)) (Z.lnot I2C_LCD_E))
            (if truthy bl then I2C_LCD_BL else 0x00)).

Definition push_log (bl d : Z) : list BusEvent :=
  [EvWrite (strobe_hi bl d); EvWrite (strobe_lo bl d); EvDelayUs 100].

Definition command4bit_log (bl cmd : Z) : list BusEvent :=
  push_log bl (u8 (Z.land cmd 0xF0)) ++ push_log bl (u8 (Z.shiftl cmd 4)).

Definition command8bit_log (bl cmd : Z) : list BusEvent :=
  push_log bl (u8 (Z.land cmd 0xF0)).

Definition write_log (bl c : Z) : list BusEvent :=
  push_log bl (u8 (Z.lor (Z.land c 0xF0) I2C_LCD_RS)) ++
  push_log bl (u8 (Z.lor (Z.shiftl c 4) I2C_LCD_RS)).

(** One [write] per element, in order. *)
Definition writes_log (bl : Z) (cs : list Z) : list BusEvent :=
  concat (map (write_log bl) cs).

(** A transaction: blocking start, body, stop. *)
Definition bracket (body : list BusEvent) : list BusEvent :=
  [EvStartWait lcd_addr] ++ body ++ [EvStop].

(** [m] run from [w] finishes in driver state [s'] after appending [t] to
    the bus log. *)
Definition yields (m : Drv unit) (w : World) (s' : LcdState)
  (t : list BusEvent) : Prop :=
  m w = Done tt (mkWorld s' (bus w ++ t)).

(** Characters of the array before its first NUL. *)
Fixpoint c_string (c : list Z) : list Z :=
  match c with
  | [] => []
  | ch :: rest => if ch =? 0 then [] else ch :: c_string rest
  end.

(** The array has a terminator. *)
Definition terminated (c : list Z) : Prop := In 0 c.

(** 256 letters 'A' and the terminator. *)
Definition long_string : list Z := replicate 256 0x41 ++ [0].

(** The end-to-end scenario of the specification: [init(16, 2)],
    [print("Hi")], [setCursor(1, 2)], [printChar('!')]. *)
Definition scenario (status : list BusEvent -> Z) : Drv unit :=
  I2C_LCD_init status 16 2 ;;
  I2C_LCD_print status 3 [0x48; 0x69; 0] ;;
  I2C_LCD_setCursor status 1 2 ;;
  I2C_LCD_printChar status 0x21.

(** ** Auxiliary definitions for the statements *)

(** [P] holds of each of the 256 bytes. *)
Definition all_u8 (P : Z -> bool) : bool :=
  forallb P (map Z.of_nat (seq 0 256)).

(** The bits of the expander byte that are neither enable nor backlight:
    RS, RW and DB4 to DB7. *)
Definition carried_bits : list Z := [0; 1; 4; 5; 6; 7].

(** What the two bytes of a strobe have to satisfy, as a test on [b]. *)
Definition strobe_ok (bl b : Z) : bool :=
  let hi := strobe_hi bl b in
  let lo := strobe_lo bl b in
  (hi =? Z.lor (Z.lor (Z.land b 0xF7) (if truthy bl then 0x08 else 0)) 0x04)
  && (lo =? Z.land hi 0xFB)
  && Z.testbit hi 2 && negb (Z.testbit lo 2)
  && eqb (Z.testbit hi 3) (truthy bl) && eqb (Z.testbit lo 3) (truthy bl)
  && forallb (fun i => eqb (Z.testbit hi i) (Z.testbit b i)
                       && eqb (Z.testbit lo i) (Z.testbit b i)) carried_bits.

(** [displayfunction] after the test [lines > 1] of [I2C_LCD_init]. *)
Definition init_displayfunction (df lines : Z) : Z :=
  if 1 <? lines then u8 (Z.lor df I2C_LCD_2LINE) else df.

(** Bus log of [I2C_LCD_init], [df] being the function flags it sends. *)
Definition init_log (df : Z) : list BusEvent :=
  [EvDelayMs 40; EvStartWait lcd_addr] ++
  command8bit_log I2C_LCD_ON (Z.lor I2C_LCD_FUNCTIONSET I2C_LCD_8BITMODE) ++
  [EvDelayUs 4500] ++
  command8bit_log I2C_LCD_ON (Z.lor I2C_LCD_FUNCTIONSET I2C_LCD_8BITMODE) ++
  [EvDelayUs 150] ++
  command8bit_log I2C_LCD_ON (Z.lor I2C_LCD_FUNCTIONSET I2C_LCD_8BITMODE) ++
  command8bit_log I2C_LCD_ON (Z.lor I2C_LCD_FUNCTIONSET I2C_LCD_4BITMODE) ++
  command4bit_log I2C_LCD_ON (u8 (Z.lor I2C_LCD_FUNCTIONSET df)) ++
  command4bit_log I2C_LCD_ON (Z.lor I2C_LCD_DISPLAYCONTROL I2C_LCD_DISPLAY) ++
  command4bit_log I2C_LCD_ON I2C_LCD_CLEARDISPLAY ++
  command4bit_log I2C_LCD_ON
    (Z.lor I2C_LCD_ENTRYMODESET
           (Z.lor I2C_LCD_ENTRYLEFT I2C_LCD_ENTRYSHIFTDECREMENT)) ++
  [EvStop].

(** Driver state after [I2C_LCD_init cols lines] run from state [s]. *)
Definition init_state (s : LcdState) (cols lines : Z) : LcdState :=
  mkLcd I2C_LCD_ON lines cols
        (init_displayfunction (displayfunction s) lines)
        I2C_LCD_DISPLAY
        (Z.lor I2C_LCD_ENTRYLEFT I2C_LCD_ENTRYSHIFTDECREMENT)
        [# 0x00; 0x40; cols; (0x40 + cols) mod 256].

(** The world [I2C_LCD_init cols lines] leaves behind when run from [w]. *)
Definition after_init (w : World) (cols lines : Z) : World :=
  mkWorld (init_state (lcd w) cols lines)
          (bus w ++
           init_log (init_displayfunction (displayfunction (lcd w)) lines)).

(** The command byte [I2C_LCD_setCursorWOI2C] sends in state [s], given
    the row offset [off] it has read. *)
Definition ddram_command (s : LcdState) (col off : Z) : Z :=
  u8 (Z.lor I2C_LCD_SETDDRAMADDR ((limit col (numcols s) - 1) + off)).

(** The index of the array access. *)
Definition row_index (s : LcdState) (row : Z) : Z :=
  limit row (numlines s) - 1.

(** Clear the bit [mask] in [flags], then set it when [state] is true. *)
Definition toggle_flags (flags mask state : Z) : Z :=
  u8 (Z.lor (u8 (Z.land flags (Z.lnot mask)))
            (if truthy state then mask else 0)).

(** The toggles that rewrite one bit of a stored flags byte. *)
Inductive Toggle : Type :=
| TDisplay
| TCursor
| TBlink
| TCursorFixPosition.

(** The routine of I2C_LCD.c behind each toggle. *)
Definition run_toggle (status : list BusEvent -> Z) (tg : Toggle) (state : Z)
  : Drv unit :=
  match tg with
  | TDisplay => I2C_LCD_display status state
  | TCursor => I2C_LCD_cursor status state
  | TBlink => I2C_LCD_blink status state
  | TCursorFixPosition => I2C_LCD_cursorFixPosition status state
  end.

(** The command byte a toggle sends in state [s]: the whole flags byte
    under its opcode. *)
Definition toggle_command (tg : Toggle) (s : LcdState) : Z :=
  match tg with
  | TDisplay | TCursor | TBlink =>
      u8 (Z.lor I2C_LCD_DISPLAYCONTROL (displaycontrol s))
  | TCursorFixPosition => u8 (Z.lor I2C_LCD_ENTRYMODESET (displaymode s))
  end.

(** The driver state a toggle leaves. *)
Definition toggle_state (tg : Toggle) (state : Z) (s : LcdState) : LcdState :=
  match tg with
  | TDisplay =>
      set_displaycontrol
        (toggle_flags (displaycontrol s) I2C_LCD_DISPLAY state) s
  | TCursor =>
      set_displaycontrol
        (toggle_flags (displaycontrol s) I2C_LCD_CURSOR state) s
  | TBlink =>
      set_displaycontrol
        (toggle_flags (displaycontrol s) I2C_LCD_BLINK state) s
  | TCursorFixPosition =>
      set_displaymode
        (toggle_flags (displaymode s) I2C_LCD_ENTRYSHIFTINCREMENT state) s
  end.

(** Toggling twice gives the flags of toggling once, as a test. *)
Definition toggle_idem_ok (mask state flags : Z) : bool :=
  toggle_flags (toggle_flags flags mask state) mask state
  =? toggle_flags flags mask state.

(** ** Assertions on runs *)

(** Whenever [m], started in a world satisfying [P], returns, the world
    it returns satisfies [Q]. *)
Definition hoare {A : Type} (P : World -> Prop) (m : Drv A)
  (Q : World -> Prop) : Prop :=
  forall w a w', P w -> m w = Done a w' -> Q w'.

(** The seven file-scope variables of the driver. *)
Inductive Field : Type :=
| FBacklight
| FNumlines
| FNumcols
| FDisplayfunction
| FDisplaycontrol
| FDisplaymode
| FRowOffsets.

(** The variable [fld] has the same value in [s'] as in [s]. *)
Definition same_field (fld : Field) (s s' : LcdState) : Prop :=
  match fld with
  | FBacklight => backlight s' = backlight s
  | FNumlines => numlines s' = numlines s
  | FNumcols => numcols s' = numcols s
  | FDisplayfunction => displayfunction s' = displayfunction s
  | FDisplaycontrol => displaycontrol s' = displaycontrol s
  | FDisplaymode => displaymode s' = displaymode s
  | FRowOffsets => row_offsets s' = row_offsets s
  end.

(** The variables each function assigns to. *)
Definition may_write (op : Op) (fld : Field) : bool :=
  match op, fld with
  | OpInit _ _, _ => true
  | OpBacklight _, FBacklight => true
  | OpDisplay _, FDisplaycontrol => true
  | OpCursor _, FDisplaycontrol => true
  | OpBlink _, FDisplaycontrol => true
  | OpLeftToRight, FDisplaymode => true
  | OpRightToLeft, FDisplaymode => true
  | OpCursorFixPosition _, FDisplaymode => true
  | OpSetRowOffsets _ _ _ _, FRowOffsets => true
  | _, _ => false
  end.

(** The driver state each function of the interface leaves, as a function
    of the state it starts from. *)
Definition op_state (op : Op) (s : LcdState) : LcdState :=
  match op with
  | OpInit cols lines =>
      mkLcd I2C_LCD_ON lines cols
            (init_displayfunction (displayfunction s) lines)
            I2C_LCD_DISPLAY
            (Z.lor I2C_LCD_ENTRYLEFT I2C_LCD_ENTRYSHIFTDECREMENT)
            [# 0x00; 0x40; u8 cols; u8 (0x40 + cols)]
  | OpDisplay state => toggle_state TDisplay state s
  | OpCursor state => toggle_state TCursor state s
  | OpBlink state => toggle_state TBlink state s
  | OpCursorFixPosition state => toggle_state TCursorFixPosition state s
  | OpBacklight state => set_backlight state s
  | OpLeftToRight =>
      set_displaymode (u8 (Z.lor (displaymode s) I2C_LCD_ENTRYLEFT)) s
  | OpRightToLeft =>
      set_displaymode
        (u8 (Z.land (displaymode s) (Z.lnot I2C_LCD_ENTRYLEFT))) s
  | OpSetRowOffsets row1 row2 row3 row4 =>
      mkLcd (backlight s) (numlines s) (numcols s) (displayfunction s)
            (displaycontrol s) (displaymode s) [# row1; row2; row3; row4]
  | _ => s
  end.

(** ** The discipline of the wire *)

(** Where a transaction stands: not opened yet; open with the enable line
    low; a byte with enable high has just been written; its low twin has
    been written and the controller is given time; closed. *)
Inductive Phase : Type :=
| Before
| Ready
| Strobing (d : Z)
| Settling
| After.

(** One event of the bus log, [bl] being the stored backlight flag.  A
    transaction is opened once, to the display address; a byte written
    with enable high has the read line low and the backlight bit of the
    flag; the next byte is the same with enable low; at least 100 us
    follow; the transaction is closed with the enable line low. *)
Definition wire_step (bl : Z) (p : Phase) (e : BusEvent) : option Phase :=
  match p, e with
  | Before, EvDelayMs _ => Some Before
  | Before, EvStartWait a =>
      if a =? I2C_LCD_ADDRESS then Some Ready else None
  | Ready, EvWrite d =>
      if Z.testbit d 2 && negb (Z.testbit d 1)
         && eqb (Z.testbit d 3) (truthy bl)
      then Some (Strobing d) else None
  | Strobing d, EvWrite d' =>
      if d' =? Z.land d (Z.lnot I2C_LCD_E) then Some Settling else None
  | Settling, EvDelayUs us => if 100 <=? us then Some Ready else None
  | Ready, EvDelayUs _ => Some Ready
  | Ready, EvStop => Some After
  | _, _ => None
  end.

Fixpoint wire_run (bl : Z) (p : Phase) (t : list BusEvent) : option Phase :=
  match t with
  | [] => Some p
  | e :: t' =>
      match wire_step bl p e with
      | Some q => wire_run bl q t'
      | None => None
      end
  end.

(** Since the log was [l0], the bus has gone from [Before] to [p]. *)
Definition at_phase (l0 : list BusEvent) (p : Phase) (w : World) : Prop :=
  exists t, bus w = l0 ++ t /\ wire_run (backlight (lcd w)) Before t = Some p.

Definition is_ready (o : option Phase) : bool :=
  match o with
  | Some Ready => true
  | _ => false
  end.


(** The functions that read an array: [row_offsets], a string, a glyph. *)
Definition reads_array (op : Op) : bool :=
  match op with
  | OpHome | OpSetCursor _ _ | OpSetCursorWOI2C _ _ | OpPrint _
  | OpCreateChar _ _ => true
  | _ => false
  end.

(** [m] returns from every world. *)
Definition returns {A : Type} (m : Drv A) : Prop :=
  forall w, exists a w', m w = Done a w'.

(** The strobe of payload [d] takes the wire from [Ready] to [Ready], as a
    test on [d]; a payload with the read bit set is left out. *)
Definition push_wire_ok (bl d : Z) : bool :=
  Z.testbit d 1 || is_ready (wire_run bl Ready (push_log bl d)).

(** The functions that work inside a transaction the caller has opened. *)
Definition is_encoding (op : Op) : bool :=
  match op with
  | OpSetCursorWOI2C _ _ | OpWrite _ | OpCommand4bit _ | OpCommand8bit _ =>
      true
  | _ => false
  end.

(** The flags byte a toggle works on, and the number of its bit there. *)
Definition toggle_field (tg : Toggle) (s : LcdState) : Z :=
  match tg with
  | TDisplay | TCursor | TBlink => displaycontrol s
  | TCursorFixPosition => displaymode s
  end.

Definition toggle_bit (tg : Toggle) : Z :=
  match tg with
  | TDisplay => 2
  | TCursor => 1
  | TBlink => 0
  | TCursorFixPosition => 0
  end.

Definition toggle_mask (tg : Toggle) : Z :=
  match tg with
  | TDisplay => I2C_LCD_DISPLAY
  | TCursor => I2C_LCD_CURSOR
  | TBlink => I2C_LCD_BLINK
  | TCursorFixPosition => I2C_LCD_ENTRYSHIFTINCREMENT
  end.

(** Bit [i] of the toggled flags is the requested one at the toggle's own
    position and the old one elsewhere, as a test on the old flags. *)
Definition toggle_bit_ok (mask bit state i flags : Z) : bool :=
  eqb (Z.testbit (toggle_flags flags mask state) i)
      (if i =? bit then truthy state else Z.testbit flags i).

(** The same for the bit of the entry direction. *)
Definition direction_bit_ok (left : bool) (i flags : Z) : bool :=
  eqb (Z.testbit (if left
                  then u8 (Z.lor flags I2C_LCD_ENTRYLEFT)
                  else u8 (Z.land flags (Z.lnot I2C_LCD_ENTRYLEFT))) i)
      (if i =? 1 then left else Z.testbit flags i).

(** The DDRAM address of column [col] of row [row] on a display with
    [cols] columns: rows 1 and 3 share the first line of the controller,
    rows 2 and 4 the second. *)
Definition ddram_address (cols col row : Z) : Z :=
  (col - 1) +
  (if row =? 1 then 0x00
   else if row =? 2 then 0x40
   else if row =? 3 then 0x00 + cols
   else 0x40 + cols).

(** The geometries whose rows fit the 7-bit address space side by side;
    1x80, 2x40 and 4x20, the largest the driver documents, are among
    them. *)
Definition geometry_ok (cols lines : Z) : Prop :=
  1 <= cols /\ 1 <= lines <= 4 /\
  (lines = 1 -> cols <= 128) /\
  (lines = 2 -> cols <= 64) /\
  (3 <= lines -> cols <= 32).

(** The row offset [I2C_LCD_setRowOffsets] stores for row [row]. *)
Definition custom_offset (row1 row2 row3 row4 row : Z) : Z :=
  if row =? 1 then row1
  else if row =? 2 then row2
  else if row =? 3 then row3
  else row4.

(** [0x80 | a] is [0x80 + a] for a 7-bit [a], as a test on [a]. *)
Definition lor_128_ok (a : Z) : bool :=
  (128 <=? a) || (u8 (Z.lor I2C_LCD_SETDDRAMADDR a) =? 128 + a).

(** The two nibbles a byte is sent as come back as the byte, with the
    register-select bit [rs] on both; a test on the byte [c]. *)
Definition nibbles_ok (rs : bool) (bl c : Z) : bool :=
  let p1 := if rs then u8 (Z.lor (Z.land c 0xF0) I2C_LCD_RS)
            else u8 (Z.land c 0xF0) in
  let p2 := if rs then u8 (Z.lor (Z.shiftl c 4) I2C_LCD_RS)
            else u8 (Z.shiftl c 4) in
  (Z.lor (Z.land (strobe_hi bl p1) 0xF0) (Z.shiftr (strobe_hi bl p2) 4) =? c)
  && eqb (Z.testbit (strobe_hi bl p1) 0) rs
  && eqb (Z.testbit (strobe_hi bl p2) 0) rs.

(** Or-ing the two-line bit into flags that have it changes nothing; a
    test on the flags. *)
Definition two_line_ok (df : Z) : bool :=
  u8 (Z.lor (u8 (Z.lor df I2C_LCD_2LINE)) I2C_LCD_2LINE) =?
  Z.lor df I2C_LCD_2LINE.

(** A sequence of calls. *)
Fixpoint run_ops (status : list BusEvent -> Z) (fuel : nat) (ops : list Op)
  : Drv unit :=
  match ops with
  | [] => ret tt
  | op :: ops' => run_op status fuel op ;; run_ops status fuel ops'
  end.

Definition is_init (op : Op) : bool :=
  match op with
  | OpInit _ _ => true
  | _ => false
  end.

(** ** What a call costs *)

(** Bytes handed to the transport in a log. *)
Fixpoint bytes_written (t : list BusEvent) : Z :=
  match t with
  | [] => 0
  | EvWrite _ :: t' => 1 + bytes_written t'
  | _ :: t' => bytes_written t'
  end.

(** Microseconds spent in [_delay_us] and [_delay_ms] in a log. *)
Fixpoint waited_us (t : list BusEvent) : Z :=
  match t with
  | [] => 0
  | EvDelayUs us :: t' => us + waited_us t'
  | EvDelayMs ms :: t' => 1000 * ms + waited_us t'
  | _ :: t' => waited_us t'
  end.

(** Since the log was [l0], [b] bytes were written and [u] microseconds
    waited. *)
Definition cost_at (l0 : list BusEvent) (b u : Z) (w : World) : Prop :=
  exists t, bus w = l0 ++ t /\ bytes_written t = b /\ waited_us t = u.

(** Bytes and microseconds of each function; [print] is left out, its cost
    being that of its string. *)
Definition op_cost (op : Op) : option (Z * Z) :=
  match op with
  | OpInit _ _ => Some (24, 45850)
  | OpPrint _ => None
  | OpCreateChar _ _ => Some (36, 1800)
  | OpSetRowOffsets _ _ _ _ => Some (0, 0)
  | OpCommand8bit _ | OpPush _ => Some (2, 100)
  | _ => Some (4, 200)
  end.

(** * Properties *)

(** ** Running sequences *)

Lemma yields_bind (m k : Drv unit) w s1 t1 s2 t2 :
  yields m w s1 t1 ->
  yields k (mkWorld s1 (bus w ++ t1)) s2 t2 ->
  yields (m ;; k) w s2 (t1 ++ t2).
Proof.
  unfold yields, bind. intros -> ->. cbn [bus]. now rewrite app_assoc.
Qed.

Lemma yields_get {A} (f : LcdState -> A) (k : A -> Drv unit) w s' t :
  yields (k (f (lcd w))) w s' t ->
  yields (x <- get f ;; k x) w s' t.
Proof. unfold yields, bind, get. now destruct w. Qed.

Lemma yields_modify (f : LcdState -> LcdState) w :
  yields (modify f) w (f (lcd w)) [].
Proof. unfold yields, modify. now rewrite app_nil_r. Qed.

Lemma yields_ret w : yields (ret tt) w (lcd w) [].
Proof. unfold yields, ret. rewrite app_nil_r. now destruct w. Qed.

Lemma yields_modify_bind (f : LcdState -> LcdState) (k : Drv unit) w s' t :
  yields k (mkWorld (f (lcd w)) (bus w)) s' t ->
  yields (modify f ;; k) w s' t.
Proof. unfold yields, bind, modify. now intros ->. Qed.

Section Encoding.

Variable status : list BusEvent -> Z.

(** The transport's answer reaches the caller: what the driver does with
    it is the driver's business. *)
Lemma write_returns_status d w :
  I2C_write status d w =
    Done (status (bus w ++ [EvWrite d]))
         (mkWorld (lcd w) (bus w ++ [EvWrite d])).
Proof. reflexivity. Qed.

Lemma yields_startWait a w :
  yields (I2C_startWait status a ;; ret tt) w (lcd w) [EvStartWait a].
Proof. reflexivity. Qed.

Lemma yields_startWait_bind a (k : Drv unit) w s' t :
  yields k (mkWorld (lcd w) (bus w ++ [EvStartWait a])) s' t ->
  yields (I2C_startWait status a ;; k) w s' (EvStartWait a :: t).
Proof.
  unfold yields, bind, I2C_startWait, emit. cbn [bus lcd]. intros ->.
  now rewrite <- app_assoc.
Qed.

Lemma yields_stop w : yields I2C_stop w (lcd w) [EvStop].
Proof. reflexivity. Qed.

Lemma yields_delay_us n w : yields (_delay_us n) w (lcd w) [EvDelayUs n].
Proof. reflexivity. Qed.

Lemma yields_delay_ms n w : yields (_delay_ms n) w (lcd w) [EvDelayMs n].
Proof. reflexivity. Qed.

Lemma yields_push d w :
  yields (I2C_LCD_push status d) w (lcd w) (push_log (backlight (lcd w)) d).
Proof.
  unfold yields, I2C_LCD_push, bind, get, I2C_write, _delay_us, emit, push_log,
    strobe_hi, strobe_lo.
  cbn [bus lcd]. now rewrite <- !app_assoc.
Qed.

Lemma yields_command8bit c w :
  yields (I2C_LCD_command8bit status c) w (lcd w)
         (command8bit_log (backlight (lcd w)) c).
Proof. apply yields_push. Qed.

Lemma yields_command4bit c w :
  yields (I2C_LCD_command4bit status c) w (lcd w)
         (command4bit_log (backlight (lcd w)) c).
Proof.
  unfold I2C_LCD_command4bit, command4bit_log.
  eapply yields_bind; [apply yields_push|].
  exact (yields_push _ (mkWorld _ _)).
Qed.

Lemma yields_write c w :
  yields (I2C_LCD_write status c) w (lcd w) (write_log (backlight (lcd w)) c).
Proof.
  unfold I2C_LCD_write, write_log.
  eapply yields_bind; [apply yields_push|].
  exact (yields_push _ (mkWorld _ _)).
Qed.

End Encoding.

(** ** Stepping through a routine *)

Lemma yields_eq (m : Drv unit) w s t s' t' :
  yields m w s t -> s = s' -> t = t' -> yields m w s' t'.
Proof. now intros H <- <-. Qed.

Ltac ysimpl :=
  cbv beta delta [set_backlight set_numlines set_numcols set_displayfunction
                  set_displaycontrol set_displaymode set_row_offset];
  cbn [lcd bus backlight numlines numcols displayfunction displaycontrol
       displaymode row_offsets].

Ltac yprim :=
  first
    [ exact (yields_push _ _ (mkWorld _ _))
    | exact (yields_command4bit _ _ (mkWorld _ _))
    | exact (yields_command8bit _ _ (mkWorld _ _))
    | exact (yields_write _ _ (mkWorld _ _))
    | exact (yields_stop (mkWorld _ _))
    | exact (yields_delay_us _ (mkWorld _ _))
    | exact (yields_delay_ms _ (mkWorld _ _))
    | exact (yields_modify _ (mkWorld _ _))
    | exact (yields_ret (mkWorld _ _)) ].

Ltac ystep :=
  ysimpl;
  lazymatch goal with
  | |- yields (bind (modify _) _) _ _ _ => apply yields_modify_bind
  | |- yields (bind (get _) _) _ _ _ => apply yields_get
  | |- yields (bind (I2C_startWait _ _) _) _ _ _ =>
      eapply yields_startWait_bind
  | |- yields (bind _ _) _ _ _ => eapply yields_bind; [yprim|]
  | |- yields _ _ _ _ => yprim
  end.

(** ** Checking a property of bytes on all 256 of them *)

Lemma all_u8_spec (P : Z -> bool) :
  all_u8 P = true -> forall b, is_u8 b -> P b = true.
Proof.
  unfold all_u8, is_u8. intros H b Hb.
  rewrite forallb_forall in H. apply H.
  apply in_map_iff. exists (Z.to_nat b). split; [lia|].
  apply in_seq. lia.
Qed.

Lemma u8_is_u8 x : is_u8 (u8 x).
Proof. unfold is_u8, u8. apply Z.mod_pos_bound. lia. Qed.

Lemma u8_id x : is_u8 x -> u8 x = x.
Proof. unfold is_u8, u8. intros. now apply Z.mod_small. Qed.

Lemma is_u8_testbit_high x i : is_u8 x -> 8 <= i -> Z.testbit x i = false.
Proof.
  intros Hx Hi. rewrite <- (u8_id x Hx). unfold u8.
  change 256 with (2 ^ 8). apply Z.mod_pow2_bits_high. lia.
Qed.

(** ** The enable strobe of [I2C_LCD_push] *)

Lemma strobe_ok_truthy bl b :
  strobe_ok bl b = strobe_ok (if truthy bl then 1 else 0) b.
Proof. unfold strobe_ok, strobe_hi, strobe_lo. now destruct (truthy bl). Qed.

Lemma strobe_ok_all bl b : is_u8 b -> strobe_ok bl b = true.
Proof.
  rewrite strobe_ok_truthy. revert b.
  destruct (truthy bl); apply all_u8_spec; vm_compute; reflexivity.
Qed.

Lemma carried_bits_spec i :
  0 <= i < 8 -> i <> 2 -> i <> 3 -> In i carried_bits.
Proof. unfold carried_bits. cbn [In]. lia. Qed.

(** C2. For every byte [b] and every stored backlight flag,
    [I2C_LCD_push b] performs exactly two byte writes and then the 100 us
    settle delay.  The first byte is [b] with bit 0x08 replaced by the
    backlight flag and bit 0x04 set, the second is the same byte with bit
    0x04 cleared: enable is high then low, the backlight bit equals the
    stored flag in both, and every other bit (RS, RW, DB4..DB7) is the bit
    of [b] in both. *)
Theorem push_strobes_enable (status : list BusEvent -> Z) (b : Z) (w : World) :
  is_u8 b ->
  exists hi lo,
    I2C_LCD_push status b w =
      Done tt (mkWorld (lcd w)
                 (bus w ++ [EvWrite hi; EvWrite lo; EvDelayUs 100])) /\
    hi = Z.lor (Z.lor (Z.land b 0xF7)
                      (if truthy (backlight (lcd w)) then 0x08 else 0)) 0x04 /\
    lo = Z.land hi 0xFB /\
    Z.testbit hi 2 = true /\ Z.testbit lo 2 = false /\
    Z.testbit hi 3 = truthy (backlight (lcd w)) /\
    Z.testbit lo 3 = truthy (backlight (lcd w)) /\
    (forall i, i <> 2 -> i <> 3 ->
       Z.testbit hi i = Z.testbit b i /\ Z.testbit lo i = Z.testbit b i).
Proof.
  intros Hb.
  exists (strobe_hi (backlight (lcd w)) b), (strobe_lo (backlight (lcd w)) b).
  split; [apply yields_push|].
  pose proof (strobe_ok_all (backlight (lcd w)) b Hb) as Hok.
  unfold strobe_ok in Hok. cbv zeta in Hok.
  repeat (apply andb_prop in Hok; destruct Hok as [Hok ?]).
  repeat match goal with
         | H : (_ =? _) = true |- _ => apply Z.eqb_eq in H
         | H : eqb _ _ = true |- _ => apply eqb_prop in H
         | H : negb _ = true |- _ => apply negb_true_iff in H
         end.
  repeat (split; [assumption|]).
  intros i Hi2 Hi3.
  destruct (Z.lt_ge_cases i 0) as [Hneg|Hpos].
  { now rewrite !Z.testbit_neg_r. }
  destruct (Z.lt_ge_cases i 8) as [Hlow|Hhigh].
  - match goal with
    | H : forallb _ carried_bits = true |- _ =>
        rewrite forallb_forall in H;
        specialize (H i (carried_bits_spec i (conj Hpos Hlow) Hi2 Hi3));
        cbv beta in H; apply andb_prop in H; destruct H as [Hhi Hlo];
        apply eqb_prop in Hhi, Hlo
    end.
    now split.
  - rewrite (is_u8_testbit_high b i Hb Hhigh).
    split; apply is_u8_testbit_high; try assumption; apply u8_is_u8.
Qed.

Lemma push_strobes_enable_witness :
  exists hi lo,
    I2C_LCD_push (fun _ => 1) 0xA1 (mkWorld lcd_reset []) =
      Done tt (mkWorld lcd_reset [EvWrite hi; EvWrite lo; EvDelayUs 100]) /\
    hi = 0xA5 /\ lo = 0xA1.
Proof.
  destruct (push_strobes_enable (fun _ => 1) 0xA1 (mkWorld lcd_reset []))
    as (hi & lo & Hrun & Hhi & Hlo & _).
  - unfold is_u8. lia.
  - exists hi, lo. split; [exact Hrun|]. subst lo hi. split; reflexivity.
Defined.

(** ** Nibbles of [I2C_LCD_command4bit] *)

Lemma u8_land_255 x : u8 x = Z.land x 255.
Proof.
  unfold u8. change 256 with (2 ^ 8). now rewrite <- Z.land_ones by lia.
Qed.

Lemma u8_high_nibble c : u8 (Z.land c 0xF0) = Z.land c 0xF0.
Proof. now rewrite u8_land_255, <- Z.land_assoc. Qed.

(** C4. For every [c], [I2C_LCD_command4bit c] is exactly two calls of
    [I2C_LCD_push]: the first with [c & 0xF0], the second with
    [(c << 4) mod 256]; the bus log grows by the two strobes of these
    payloads, in this order; [command4bit(0xAB)] pushes 0xA0 then 0xB0. *)
Theorem command4bit_pushes_two_nibbles (status : list BusEvent -> Z) (c : Z)
  (w : World) :
  I2C_LCD_command4bit status c w =
    (I2C_LCD_push status (Z.land c 0xF0) ;;
     I2C_LCD_push status (Z.shiftl c 4 mod 256)) w /\
  I2C_LCD_command4bit status c w =
    Done tt (mkWorld (lcd w)
               (bus w ++ push_log (backlight (lcd w)) (Z.land c 0xF0)
                      ++ push_log (backlight (lcd w)) (Z.shiftl c 4 mod 256))) /\
  I2C_LCD_command4bit status 0xAB w =
    (I2C_LCD_push status 0xA0 ;; I2C_LCD_push status 0xB0) w.
Proof.
  split; [|split].
  - unfold I2C_LCD_command4bit. now rewrite u8_high_nibble.
  - rewrite <- u8_high_nibble. apply yields_command4bit.
  - reflexivity.
Qed.

(** ** Initialisation *)

Lemma vinsert_all4 (v : vec Z 4) a b c d :
  vinsert 3%fin d (vinsert 2%fin c (vinsert 1%fin b (vinsert 0%fin a v))) =
  [# a; b; c; d].
Proof. inv_vec v. reflexivity. Qed.

Lemma init_run (status : list BusEvent -> Z) (cols lines : Z) (w : World) :
  is_u8 cols ->
  I2C_LCD_init status cols lines w =
    Done tt (mkWorld (init_state (lcd w) cols lines)
               (bus w ++
                init_log (init_displayfunction (displayfunction (lcd w)) lines))).
Proof.
  intros Hc. destruct w as [s l].
  eapply yields_eq.
  - unfold I2C_LCD_init, I2C_LCD_setRowOffsets.
    do 9 ystep.
    eapply yields_bind.
    { instantiate (2 := set_displayfunction
                          (init_displayfunction (displayfunction s) lines)
                          (set_backlight I2C_LCD_ON s)).
      instantiate (1 := []).
      unfold init_displayfunction. destruct (1 <? lines).
      - ystep. apply yields_modify.
      - unfold yields, ret. ysimpl. now rewrite app_nil_r. }
    repeat ystep.
  - ysimpl. unfold init_state.
    rewrite vinsert_all4. change (0x00 + cols) with cols.
    now rewrite (u8_id cols Hc).
  - ysimpl.
    unfold init_log, lcd_addr. cbn [app]. rewrite ?app_nil_r, <- ?app_assoc.
    reflexivity.
Qed.

(** C1 (amended). For all bytes [cols] and [lines], [I2C_LCD_init] runs, in
    order: backlight flag on; 40 ms delay; one blocking [startWait] to the
    display address; the 8-bit-mode function-set nibble three times, with
    4500 us after the first, 150 us after the second and nothing after the
    third; the 4-bit-mode function-set nibble; the two-line bit is or-ed
    into [displayfunction] exactly when [lines > 1]; [numlines = lines],
    [numcols = cols]; the row offsets become 0x00, 0x40, [cols] and
    [(0x40 + cols) mod 256] (which is [0x40 + cols] below 192 columns);
    FUNCTIONSET | displayfunction as two nibbles; [displaycontrol] is the
    display-on bit alone and DISPLAYCONTROL | displaycontrol is sent;
    CLEARDISPLAY; [displaymode] is left entry with shift decrement and
    ENTRYMODESET | displaymode is sent; stop.  All nibbles carry the
    backlight bit, the flag being set first. *)
Theorem init_sequence (status : list BusEvent -> Z) (cols lines : Z)
  (w : World) :
  is_u8 cols -> is_u8 lines ->
  let df :=
    if 1 <? lines
    then (Z.lor (displayfunction (lcd w)) I2C_LCD_2LINE) mod 256
    else displayfunction (lcd w) in
  I2C_LCD_init status cols lines w =
    Done tt
      (mkWorld
         (mkLcd I2C_LCD_ON lines cols df I2C_LCD_DISPLAY
            (Z.lor I2C_LCD_ENTRYLEFT I2C_LCD_ENTRYSHIFTDECREMENT)
            [# 0x00; 0x40; cols; (0x40 + cols) mod 256])
         (bus w ++
          [EvDelayMs 40; EvStartWait lcd_addr] ++
          command8bit_log I2C_LCD_ON
            (Z.lor I2C_LCD_FUNCTIONSET I2C_LCD_8BITMODE) ++
          [EvDelayUs 4500] ++
          command8bit_log I2C_LCD_ON
            (Z.lor I2C_LCD_FUNCTIONSET I2C_LCD_8BITMODE) ++
          [EvDelayUs 150] ++
          command8bit_log I2C_LCD_ON
            (Z.lor I2C_LCD_FUNCTIONSET I2C_LCD_8BITMODE) ++
          command8bit_log I2C_LCD_ON
            (Z.lor I2C_LCD_FUNCTIONSET I2C_LCD_4BITMODE) ++
          command4bit_log I2C_LCD_ON
            ((Z.lor I2C_LCD_FUNCTIONSET df) mod 256) ++
          command4bit_log I2C_LCD_ON
            (Z.lor I2C_LCD_DISPLAYCONTROL I2C_LCD_DISPLAY) ++
          command4bit_log I2C_LCD_ON I2C_LCD_CLEARDISPLAY ++
          command4bit_log I2C_LCD_ON
            (Z.lor I2C_LCD_ENTRYMODESET
               (Z.lor I2C_LCD_ENTRYLEFT I2C_LCD_ENTRYSHIFTDECREMENT)) ++
          [EvStop])) /\
  (cols < 192 -> (0x40 + cols) mod 256 = 0x40 + cols) /\
  (displayfunction (lcd w) = 0 -> (Z.testbit df 3 = true <-> 1 < lines)).
Proof.
  intros Hc Hl df. split; [exact (init_run status cols lines w Hc)|]. split.
  - unfold is_u8 in Hc. intros. apply Z.mod_small. lia.
  - subst df. intros ->.
    destruct (Z.ltb_spec 1 lines); split; intros; try lia; try reflexivity.
    discriminate.
Qed.

Lemma init_sequence_witness :
  is_u8 16 /\ is_u8 2 /\
  I2C_LCD_init (fun _ => 1) 16 2 (mkWorld lcd_reset []) =
    Done tt (mkWorld (mkLcd 0xFF 2 16 0x08 0x04 0x02 [# 0x00; 0x40; 0x10; 0x50])
               (init_log 0x08)).
Proof.
  assert (H16 : is_u8 16) by (unfold is_u8; lia).
  assert (H2 : is_u8 2) by (unfold is_u8; lia).
  split; [exact H16|]. split; [exact H2|].
  exact (proj1 (init_sequence (fun _ => 1) 16 2 (mkWorld lcd_reset []) H16 H2)).
Defined.

(** The bytes [init(16, 2)] puts on the wire after power-up. *)
Example init_16x2_wire :
  init_log 0x08 =
    [EvDelayMs 40; EvStartWait 0x4E;
     EvWrite 0x3C; EvWrite 0x38; EvDelayUs 100; EvDelayUs 4500;
     EvWrite 0x3C; EvWrite 0x38; EvDelayUs 100; EvDelayUs 150;
     EvWrite 0x3C; EvWrite 0x38; EvDelayUs 100;
     EvWrite 0x2C; EvWrite 0x28; EvDelayUs 100;
     EvWrite 0x2C; EvWrite 0x28; EvDelayUs 100;
     EvWrite 0x8C; EvWrite 0x88; EvDelayUs 100;
     EvWrite 0x0C; EvWrite 0x08; EvDelayUs 100;
     EvWrite 0xCC; EvWrite 0xC8; EvDelayUs 100;
     EvWrite 0x0C; EvWrite 0x08; EvDelayUs 100;
     EvWrite 0x1C; EvWrite 0x18; EvDelayUs 100;
     EvWrite 0x0C; EvWrite 0x08; EvDelayUs 100;
     EvWrite 0x6C; EvWrite 0x68; EvDelayUs 100;
     EvStop].
Proof. reflexivity. Qed.

(** C1 as stated fails for wide geometries: with 200 columns the fourth
    row offset stored is 8, not 0x40 + 200. *)
Lemma init_row_offset_wraps :
  exists s' t,
    I2C_LCD_init (fun _ => 1) 200 2 (mkWorld lcd_reset []) =
      Done tt (mkWorld s' t) /\
    row_offsets s' = [# 0x00; 0x40; 200; 8] /\
    row_offsets s' <> [# 0x00; 0x40; 0x00 + 200; 0x40 + 200].
Proof.
  exists (init_state lcd_reset 200 2), (init_log 0x08).
  split; [apply init_run; unfold is_u8; lia|].
  split; [reflexivity|].
  intros H. apply (f_equal vec_to_list) in H. discriminate H.
Qed.

(** ** Cursor addressing *)

Section Cursor.

Variable status : list BusEvent -> Z.

Lemma setCursorWOI2C_defined col row off w :
  row_offsets_at (lcd w) (row_index (lcd w) row) = Some off ->
  yields (I2C_LCD_setCursorWOI2C status col row) w (lcd w)
         (command4bit_log (backlight (lcd w)) (ddram_command (lcd w) col off)).
Proof.
  intros Hoff. unfold yields, I2C_LCD_setCursorWOI2C, bind, get.
  unfold row_index in Hoff. rewrite Hoff.
  apply yields_command4bit.
Qed.

Lemma setCursorWOI2C_undefined col row w :
  row_offsets_at (lcd w) (row_index (lcd w) row) = None ->
  I2C_LCD_setCursorWOI2C status col row w = Undefined.
Proof.
  intros Hoff. unfold I2C_LCD_setCursorWOI2C, bind, get.
  unfold row_index in Hoff. now rewrite Hoff.
Qed.

Lemma setCursor_defined col row off w :
  row_offsets_at (lcd w) (row_index (lcd w) row) = Some off ->
  yields (I2C_LCD_setCursor status col row) w (lcd w)
         (bracket (command4bit_log (backlight (lcd w))
                                   (ddram_command (lcd w) col off))).
Proof.
  intros Hoff. unfold I2C_LCD_setCursor, bracket.
  apply yields_startWait_bind. eapply yields_bind.
  - exact (setCursorWOI2C_defined col row off (mkWorld _ _) Hoff).
  - exact (yields_stop (mkWorld _ _)).
Qed.

Lemma setCursor_undefined col row w :
  row_offsets_at (lcd w) (row_index (lcd w) row) = None ->
  I2C_LCD_setCursor status col row w = Undefined.
Proof.
  intros Hoff. unfold I2C_LCD_setCursor, bind, I2C_startWait.
  now rewrite (setCursorWOI2C_undefined col row (emit _ w)).
Qed.

Lemma row_offsets_at_bounds s i :
  is_Some (row_offsets_at s i) <-> 0 <= i < 4.
Proof.
  unfold row_offsets_at. destruct (Z.leb_spec 0 i).
  - rewrite lookup_lt_is_Some, length_vec_to_list. lia.
  - split; [intros [? ?]; discriminate|lia].
Qed.

Lemma limit_min v max : limit v max = Z.min v max.
Proof. unfold limit. destruct (Z.leb_spec max v); lia. Qed.

End Cursor.

Lemma init_after (status : list BusEvent -> Z) cols lines w :
  is_u8 cols ->
  I2C_LCD_init status cols lines w = Done tt (after_init w cols lines).
Proof. apply init_run. Qed.

Lemma ddram_command_in_range s col off :
  1 <= col <= numcols s ->
  ddram_command s col off =
    (Z.lor I2C_LCD_SETDDRAMADDR ((col - 1) + off)) mod 256.
Proof.
  intros Hc. unfold ddram_command, u8. rewrite limit_min.
  now replace (Z.min col (numcols s)) with col by lia.
Qed.

(** C3 (amended). [I2C_LCD_setCursor col row] limits [col] and [row] from
    above only: a value of at least [numcols] (resp. [numlines]) becomes
    that maximum, not wrapped and not rejected, and a value below 1 is
    left as it is.  When the limited row addresses one of the four row
    offsets, the call sends, inside one startWait/stop bracket, the single
    command [(SETDDRAMADDR | ((col' - 1) + row_offsets[row' - 1])) mod 256]
    with [col' = min col numcols] and [row' = min row numlines]; for
    [1 <= col <= numcols] and [1 <= row <= numlines] the address is
    [(col - 1) + row_offsets[row - 1]]; after an init with 20 columns the
    row offsets are 0x00, 0x40, 0x14, 0x54; and on a 20x4 display
    [setCursor(99, 99)] behaves as [setCursor(20, 4)]. *)
Theorem setCursor_limits_from_above (status : list BusEvent -> Z)
  (col row lines : Z) (w w0 : World) :
  (forall off,
     row_offsets_at (lcd w) (Z.min row (numlines (lcd w)) - 1) = Some off ->
     I2C_LCD_setCursor status col row w =
       Done tt
         (mkWorld (lcd w)
            (bus w ++
             bracket
               (command4bit_log (backlight (lcd w))
                  ((Z.lor I2C_LCD_SETDDRAMADDR
                      ((Z.min col (numcols (lcd w)) - 1) + off)) mod 256))))) /\
  (forall off,
     1 <= col <= numcols (lcd w) -> 1 <= row <= numlines (lcd w) ->
     row_offsets_at (lcd w) (row - 1) = Some off ->
     I2C_LCD_setCursor status col row w =
       Done tt
         (mkWorld (lcd w)
            (bus w ++
             bracket
               (command4bit_log (backlight (lcd w))
                  ((Z.lor I2C_LCD_SETDDRAMADDR ((col - 1) + off)) mod 256))))) /\
  (forall w1,
     I2C_LCD_init status 20 lines w0 = Done tt w1 ->
     row_offsets (lcd w1) = [# 0x00; 0x40; 0x14; 0x54]) /\
  (forall w1,
     I2C_LCD_init status 20 4 w0 = Done tt w1 ->
     I2C_LCD_setCursor status 99 99 w1 = I2C_LCD_setCursor status 20 4 w1 /\
     I2C_LCD_setCursor status 20 4 w1 =
       Done tt
         (mkWorld (lcd w1)
            (bus w1 ++
             bracket (command4bit_log I2C_LCD_ON
                        (Z.lor I2C_LCD_SETDDRAMADDR ((20 - 1) + 0x54)))))).
Proof.
  assert (H20 : is_u8 20) by (unfold is_u8; lia).
  split; [|split; [|split]].
  - intros off Hoff. rewrite <- limit_min in Hoff.
    rewrite (setCursor_defined status col row off w Hoff).
    unfold ddram_command, u8. now rewrite limit_min.
  - intros off Hc Hr Hoff.
    assert (Hidx : row_index (lcd w) row = row - 1)
      by (unfold row_index; rewrite limit_min; lia).
    rewrite <- Hidx in Hoff.
    rewrite (setCursor_defined status col row off w Hoff).
    now rewrite (ddram_command_in_range _ col off Hc).
  - intros w1 Hinit. rewrite (init_after status 20 lines w0 H20) in Hinit.
    injection Hinit as <-. reflexivity.
  - intros w1 Hinit. rewrite (init_after status 20 4 w0 H20) in Hinit.
    injection Hinit as <-.
    rewrite (setCursor_defined status 99 99 0x54 (after_init w0 20 4) eq_refl).
    rewrite (setCursor_defined status 20 4 0x54 (after_init w0 20 4) eq_refl).
    split; reflexivity.
Qed.

Lemma setCursor_limits_from_above_witness :
  I2C_LCD_setCursor (fun _ => 1) 5 2 (after_init (mkWorld lcd_reset []) 16 2) =
    Done tt
      (mkWorld (init_state lcd_reset 16 2)
         (init_log 0x08 ++ bracket (command4bit_log I2C_LCD_ON 0xC4))) /\
  I2C_LCD_setCursor (fun _ => 1) 99 99
    (after_init (mkWorld lcd_reset []) 20 4) =
  I2C_LCD_setCursor (fun _ => 1) 20 4
    (after_init (mkWorld lcd_reset []) 20 4).
Proof.
  split.
  - refine (proj1 (proj2 (setCursor_limits_from_above (fun _ => 1) 5 2 0
                            (after_init (mkWorld lcd_reset []) 16 2)
                            (mkWorld lcd_reset []))) 0x40 _ _ _).
    + cbn. lia.
    + cbn. lia.
    + reflexivity.
  - refine (proj1 (proj2 (proj2 (proj2
              (setCursor_limits_from_above (fun _ => 1) 0 0 0
                 (mkWorld lcd_reset []) (mkWorld lcd_reset []))))
              (after_init (mkWorld lcd_reset []) 20 4) _)).
    apply init_after. unfold is_u8. lia.
Defined.

(** C3 as stated fails below the range: on a 20x4 display
    [setCursor(0, 1)] is not [setCursor(1, 1)] (it sends the command 0xFF,
    not 0x80), and [setCursor(1, 0)] reads outside [row_offsets]. *)
Lemma setCursor_no_lower_limit :
  let w1 := after_init (mkWorld lcd_reset []) 20 4 in
  I2C_LCD_init (fun _ => 1) 20 4 (mkWorld lcd_reset []) = Done tt w1 /\
  I2C_LCD_setCursor (fun _ => 1) 0 1 w1 =
    Done tt (mkWorld (lcd w1)
               (bus w1 ++ bracket (command4bit_log I2C_LCD_ON 0xFF))) /\
  I2C_LCD_setCursor (fun _ => 1) 1 1 w1 =
    Done tt (mkWorld (lcd w1)
               (bus w1 ++ bracket (command4bit_log I2C_LCD_ON 0x80))) /\
  I2C_LCD_setCursor (fun _ => 1) 0 1 w1 <> I2C_LCD_setCursor (fun _ => 1) 1 1 w1 /\
  I2C_LCD_setCursor (fun _ => 1) 1 0 w1 = Undefined.
Proof.
  intros w1.
  assert (H0 : I2C_LCD_setCursor (fun _ => 1) 0 1 w1 =
    Done tt (mkWorld (lcd w1)
               (bus w1 ++ bracket (command4bit_log I2C_LCD_ON 0xFF))))
    by exact (setCursor_defined (fun _ => 1) 0 1 0 w1 eq_refl).
  assert (H1 : I2C_LCD_setCursor (fun _ => 1) 1 1 w1 =
    Done tt (mkWorld (lcd w1)
               (bus w1 ++ bracket (command4bit_log I2C_LCD_ON 0x80))))
    by exact (setCursor_defined (fun _ => 1) 1 1 0 w1 eq_refl).
  split; [apply init_after; unfold is_u8; lia|].
  split; [exact H0|]. split; [exact H1|]. split.
  - rewrite H0, H1. intros H. injection H as H. discriminate H.
  - exact (setCursor_undefined (fun _ => 1) 1 0 w1 eq_refl).
Qed.

(** ** The index into [row_offsets] *)

Lemma row_index_after_init w cols lines row :
  row_index (lcd (after_init w cols lines)) row = Z.min row lines - 1.
Proof. unfold row_index. now rewrite limit_min. Qed.

Lemma row_offsets_at_outside s i :
  ~ 0 <= i < 4 -> row_offsets_at s i = None.
Proof.
  intros Hi. destruct (row_offsets_at s i) eqn:E; [|reflexivity].
  exfalso. apply Hi, (row_offsets_at_bounds s i). now exists z.
Qed.

(** C10 (amended). [I2C_LCD_setCursorWOI2C] (and so [I2C_LCD_setCursor])
    reads [row_offsets] at index [row' - 1], [row'] being [row] limited
    from above to [numlines], the subtraction done in [int].
    [I2C_LCD_init] stores any [lines] unchecked.  After an init with
    [1 <= lines <= 4], every call with [row >= 1] has its index within the
    four elements.  Each bound of this precondition is needed: for
    [row = 0] the index is -1; after an init with [lines = 0] every row is
    limited to 0 and the index is -1; after an init with [lines > 4] a row
    above 4 indexes past the array. *)
Theorem row_index_within_array (status : list BusEvent -> Z)
  (cols lines col row : Z) (w : World) :
  is_u8 cols -> is_u8 lines -> is_u8 row ->
  let w1 := after_init w cols lines in
  I2C_LCD_init status cols lines w = Done tt w1 /\
  numlines (lcd w1) = lines /\
  (1 <= lines <= 4 -> 1 <= row ->
   0 <= row_index (lcd w1) row < 4 /\
   exists off,
     row_offsets_at (lcd w1) (row_index (lcd w1) row) = Some off /\
     I2C_LCD_setCursorWOI2C status col row w1 =
       Done tt (mkWorld (lcd w1)
                  (bus w1 ++ command4bit_log (backlight (lcd w1))
                                             (ddram_command (lcd w1) col off)))) /\
  (row = 0 ->
   row_index (lcd w1) row = -1 /\
   I2C_LCD_setCursorWOI2C status col row w1 = Undefined /\
   I2C_LCD_setCursor status col row w1 = Undefined) /\
  (lines = 0 ->
   row_index (lcd w1) row = -1 /\
   I2C_LCD_setCursorWOI2C status col row w1 = Undefined /\
   I2C_LCD_setCursor status col row w1 = Undefined) /\
  (4 < lines -> 4 < row ->
   4 <= row_index (lcd w1) row /\
   I2C_LCD_setCursorWOI2C status col row w1 = Undefined /\
   I2C_LCD_setCursor status col row w1 = Undefined).
Proof.
  intros Hc Hl Hr w1.
  split; [now apply init_after|]. split; [reflexivity|].
  unfold is_u8 in Hc, Hl, Hr.
  pose proof (row_index_after_init w cols lines row) as Hidx. fold w1 in Hidx.
  repeat split.
  - lia.
  - lia.
  - destruct (proj2 (row_offsets_at_bounds (lcd w1) (row_index (lcd w1) row)))
      as [off Hoff]; [lia|].
    exists off. split; [exact Hoff|].
    exact (setCursorWOI2C_defined status col row off w1 Hoff).
  - lia.
  - apply setCursorWOI2C_undefined, row_offsets_at_outside. lia.
  - apply setCursor_undefined, row_offsets_at_outside. lia.
  - lia.
  - apply setCursorWOI2C_undefined, row_offsets_at_outside. lia.
  - apply setCursor_undefined, row_offsets_at_outside. lia.
  - lia.
  - apply setCursorWOI2C_undefined, row_offsets_at_outside. lia.
  - apply setCursor_undefined, row_offsets_at_outside. lia.
Qed.

Lemma row_index_within_array_witness :
  is_u8 20 /\ is_u8 4 /\ is_u8 3 /\ 1 <= 4 <= 4 /\ 1 <= 3 /\
  0 <= row_index (lcd (after_init (mkWorld lcd_reset []) 20 4)) 3 < 4.
Proof.
  assert (H20 : is_u8 20) by (unfold is_u8; lia).
  assert (H4 : is_u8 4) by (unfold is_u8; lia).
  assert (H3 : is_u8 3) by (unfold is_u8; lia).
  assert (Hl : 1 <= 4 <= 4) by lia.
  assert (Hr : 1 <= 3) by lia.
  do 5 (split; [assumption|]).
  exact (proj1 (proj1 (proj2 (proj2
           (row_index_within_array (fun _ => 1) 20 4 5 3
              (mkWorld lcd_reset []) H20 H4 H3))) Hl Hr)).
Defined.

(** C10 as stated fails for [lines = 0], which is at most 4: after
    [init(16, 0)] the call [setCursorWOI2C(1, 1)], with [row >= 1], reads
    [row_offsets[-1]].  And for [row = 0] the index is -1, not 255. *)
Lemma row_index_zero_lines :
  let w1 := after_init (mkWorld lcd_reset []) 16 0 in
  I2C_LCD_init (fun _ => 1) 16 0 (mkWorld lcd_reset []) = Done tt w1 /\
  row_index (lcd w1) 1 = -1 /\
  ~ 0 <= row_index (lcd w1) 1 < 4 /\
  I2C_LCD_setCursorWOI2C (fun _ => 1) 1 1 w1 = Undefined /\
  row_index (lcd (after_init (mkWorld lcd_reset []) 16 2)) 0 = -1 /\
  row_index (lcd (after_init (mkWorld lcd_reset []) 16 2)) 0 <> 255.
Proof.
  intros w1.
  assert (H1 : row_index (lcd w1) 1 = -1) by reflexivity.
  assert (H0 : row_index (lcd (after_init (mkWorld lcd_reset []) 16 2)) 0 = -1)
    by reflexivity.
  split; [apply init_after; unfold is_u8; lia|].
  split; [exact H1|]. split; [rewrite H1; lia|].
  split; [exact (setCursorWOI2C_undefined (fun _ => 1) 1 1 w1 eq_refl)|].
  split; [exact H0|]. rewrite H0. lia.
Qed.

(** ** Text output *)

Section Print.

Variable status : list BusEvent -> Z.

Lemma writes_log_cons bl c cs :
  writes_log bl (c :: cs) = write_log bl c ++ writes_log bl cs.
Proof. reflexivity. Qed.

Lemma u8_succ (i : nat) :
  (S i < 256)%nat -> u8 (Z.of_nat i + 1) = Z.of_nat (S i).
Proof. intros. unfold u8. rewrite Z.mod_small; lia. Qed.

(** The loop from index [i] on, [rest] being the array from [i]. *)
Lemma print_loop_run (c : list Z) (rest : list Z) :
  forall (i fuel : nat) (w : World),
    drop i c = rest -> In 0 rest ->
    (i + length (c_string rest) < 256)%nat ->
    (length (c_string rest) < fuel)%nat ->
    yields (I2C_LCD_print_loop status fuel c (Z.of_nat i)) w (lcd w)
           (writes_log (backlight (lcd w)) (map u8 (c_string rest))).
Proof.
  induction rest as [|ch rest IH]; intros i fuel w Hdrop Hin Hlen Hfuel.
  - destruct Hin.
  - destruct fuel as [|fuel]; [lia|].
    assert (Hi : c !! i = Some ch).
    { rewrite <- (Nat.add_0_r i), <- lookup_drop, Hdrop. reflexivity. }
    cbn [I2C_LCD_print_loop c_string] in *.
    rewrite Nat2Z.id, Hi.
    destruct (Z.eqb_spec ch 0) as [->|Hch].
    + apply yields_ret.
    + cbn [length map] in *. rewrite writes_log_cons.
      eapply yields_bind; [apply yields_write|].
      rewrite u8_succ by lia.
      apply (IH (S i) fuel (mkWorld _ _)).
      * apply drop_S in Hi. rewrite Hdrop in Hi. now injection Hi.
      * destruct Hin as [Hin|Hin]; [congruence|exact Hin].
      * lia.
      * lia.
Qed.

(** For an array with fewer than 256 characters before its terminator
    [I2C_LCD_print] opens one transaction, writes each character once and
    in order, and stops. *)
Lemma print_sends_string (fuel : nat) (c : list Z) (w : World) :
  terminated c ->
  (length (c_string c) < 256)%nat ->
  (length (c_string c) < fuel)%nat ->
  I2C_LCD_print status fuel c w =
    Done tt (mkWorld (lcd w)
               (bus w ++ bracket (writes_log (backlight (lcd w))
                                             (map u8 (c_string c))))).
Proof.
  intros Hin Hlen Hfuel. unfold I2C_LCD_print, bracket.
  apply yields_startWait_bind. eapply yields_bind.
  - exact (print_loop_run c c 0 fuel (mkWorld _ _) eq_refl Hin Hlen Hfuel).
  - exact (yields_stop (mkWorld _ _)).
Qed.

(** [print("")]: a transaction without a write. *)
Lemma print_empty (fuel : nat) (rest : list Z) (w : World) :
  I2C_LCD_print status (S fuel) (0 :: rest) w =
    Done tt (mkWorld (lcd w) (bus w ++ [EvStartWait lcd_addr; EvStop])).
Proof.
  apply (print_sends_string (S fuel) (0 :: rest) w).
  - now left.
  - cbn. lia.
  - cbn. lia.
Qed.

(** With 256 or more characters before the terminator the counter is back
    at 0 after 256 rounds. *)
Lemma print_loop_unroll (c : list Z) (ch : Z) :
  (forall i, (i < 256)%nat -> c !! i = Some ch) -> ch <> 0 ->
  forall (n i fuel : nat) (w : World),
    (i < 256)%nat -> (i + n <= 256)%nat ->
    I2C_LCD_print_loop status (n + fuel) c (Z.of_nat i) w =
    I2C_LCD_print_loop status fuel c (u8 (Z.of_nat (i + n)))
      (mkWorld (lcd w)
         (bus w ++ writes_log (backlight (lcd w)) (replicate n (u8 ch)))).
Proof.
  intros Hc Hch. induction n as [|n IH]; intros i fuel w Hi Hn.
  - cbn [replicate writes_log map concat Nat.add]. rewrite app_nil_r.
    rewrite Nat.add_0_r, u8_id by (unfold is_u8; lia). now destruct w.
  - cbn [Nat.add I2C_LCD_print_loop]. rewrite Nat2Z.id, (Hc i Hi).
    destruct (Z.eqb_spec ch 0) as [?|_]; [contradiction|].
    unfold bind at 1. rewrite (yields_write status (u8 ch) w).
    cbn [replicate]. rewrite writes_log_cons, app_assoc.
    destruct n as [|n].
    + cbn [Nat.add replicate writes_log map concat]. rewrite app_nil_r.
      now rewrite Nat2Z.inj_add.
    + rewrite u8_succ by lia.
      rewrite (IH (S i) fuel (mkWorld _ _)) by lia.
      cbn [lcd bus]. now rewrite Nat.add_succ_comm.
Qed.

Lemma print_loop_spins (c : list Z) :
  (forall i, (i < 256)%nat -> exists ch, c !! i = Some ch /\ ch <> 0) ->
  forall (fuel : nat) (i : Z) (w : World),
    is_u8 i -> I2C_LCD_print_loop status fuel c i w = OutOfFuel.
Proof.
  intros Hc. induction fuel as [|fuel IH]; intros i w Hi; [reflexivity|].
  cbn [I2C_LCD_print_loop].
  destruct (Hc (Z.to_nat i)) as (ch & -> & Hch); [unfold is_u8 in Hi; lia|].
  destruct (Z.eqb_spec ch 0) as [?|_]; [contradiction|].
  unfold bind. rewrite (yields_write status (u8 ch) w).
  apply IH, u8_is_u8.
Qed.

Lemma long_string_lookup (i : nat) :
  (i < 256)%nat -> long_string !! i = Some 0x41.
Proof.
  intros Hi. unfold long_string.
  rewrite lookup_app_l by (rewrite length_replicate; lia).
  now apply lookup_replicate_2.
Qed.

End Print.

(** C5 at the failing input.  On an array of 256 letters and a terminator
    [I2C_LCD_print] never reaches [I2C_stop], whatever the fuel: after the
    256 writes the [uint8_t] counter is 0 again and the loop starts over
    on the first character. *)
Theorem print_long_string_never_stops (status : list BusEvent -> Z)
  (fuel : nat) (w : World) :
  I2C_LCD_print status fuel long_string w = OutOfFuel /\
  I2C_LCD_print_loop status (256 + fuel) long_string 0 w =
    I2C_LCD_print_loop status fuel long_string 0
      (mkWorld (lcd w)
         (bus w ++ writes_log (backlight (lcd w)) (replicate 256 0x41))) /\
  c_string long_string = replicate 256 0x41.
Proof.
  split; [|split].
  - unfold I2C_LCD_print, bind, I2C_startWait.
    rewrite (print_loop_spins status long_string); [reflexivity| |].
    + intros i Hi. exists 0x41. split; [now apply long_string_lookup|lia].
    + unfold is_u8. lia.
  - exact (print_loop_unroll status long_string 0x41
             long_string_lookup ltac:(lia) 256 0 fuel w
             ltac:(lia) ltac:(lia)).
  - vm_compute. reflexivity.
Qed.

Lemma printChar_run (status : list BusEvent -> Z) c w :
  yields (I2C_LCD_printChar status c) w (lcd w)
         (bracket (write_log (backlight (lcd w)) (u8 c))).
Proof.
  unfold I2C_LCD_printChar, bracket.
  apply yields_startWait_bind. eapply yields_bind.
  - exact (yields_write _ _ (mkWorld _ _)).
  - exact (yields_stop (mkWorld _ _)).
Qed.

(** The scenario of the specification, from power-up: the init sequence,
    one transaction with the data bytes of 'H' and 'i', one transaction
    with SETDDRAMADDR | 0x40, one transaction with the data byte of '!'. *)
Example scenario_log (status : list BusEvent -> Z) :
  scenario status (mkWorld lcd_reset []) =
    Done tt
      (mkWorld (init_state lcd_reset 16 2)
         (init_log 0x08 ++
          bracket (write_log I2C_LCD_ON 0x48 ++ write_log I2C_LCD_ON 0x69) ++
          bracket (command4bit_log I2C_LCD_ON
                     (Z.lor I2C_LCD_SETDDRAMADDR 0x40)) ++
          bracket (write_log I2C_LCD_ON 0x21))).
Proof.
  unfold scenario.
  change (init_log 0x08 ++
          bracket (write_log I2C_LCD_ON 0x48 ++ write_log I2C_LCD_ON 0x69) ++
          bracket (command4bit_log I2C_LCD_ON
                     (Z.lor I2C_LCD_SETDDRAMADDR 0x40)) ++
          bracket (write_log I2C_LCD_ON 0x21))
    with (bus (mkWorld lcd_reset []) ++
          (init_log 0x08 ++
           bracket (write_log I2C_LCD_ON 0x48 ++ write_log I2C_LCD_ON 0x69) ++
           bracket (command4bit_log I2C_LCD_ON
                      (Z.lor I2C_LCD_SETDDRAMADDR 0x40)) ++
           bracket (write_log I2C_LCD_ON 0x21))).
  eapply yields_eq.
  - eapply yields_bind.
    { apply (init_after status 16 2 (mkWorld lcd_reset [])).
      unfold is_u8. lia. }
    eapply yields_bind.
    { apply (print_sends_string status 3 [0x48; 0x69; 0] (mkWorld _ _)).
      - unfold terminated. cbn [In]. tauto.
      - cbn. lia.
      - cbn. lia. }
    eapply yields_bind.
    { exact (setCursor_defined status 1 2 0x40
               (mkWorld (init_state lcd_reset 16 2) _) eq_refl). }
    exact (printChar_run status 0x21 (mkWorld _ _)).
  - reflexivity.
  - vm_compute. reflexivity.
Qed.

(** ** Custom glyphs *)

Section Glyph.

Variable status : list BusEvent -> Z.

Lemma u8_land_mask x m : Z.land m 255 = m -> u8 (Z.land x m) = Z.land x m.
Proof. intros Hm. now rewrite u8_land_255, <- Z.land_assoc, Hm. Qed.

Lemma createChar_loop_run (charmap : list Z) :
  length charmap = 8%nat ->
  forall (n i fuel : nat) (w : World),
    (i + n = 8)%nat -> (n < fuel)%nat ->
    yields (I2C_LCD_createChar_loop status fuel charmap (Z.of_nat i)) w (lcd w)
           (writes_log (backlight (lcd w))
                       (map (fun row => Z.land row 0x1F) (drop i charmap))).
Proof.
  intros Hlen. induction n as [|n IH]; intros i fuel w Hi Hfuel;
    (destruct fuel as [|fuel]; [lia|]); cbn [I2C_LCD_createChar_loop].
  - destruct (Z.ltb_spec (Z.of_nat i) 8); [lia|].
    rewrite drop_ge by lia. apply yields_ret.
  - destruct (Z.ltb_spec (Z.of_nat i) 8); [|lia].
    rewrite Nat2Z.id.
    destruct (lookup_lt_is_Some_2 charmap i) as [row Hrow]; [lia|].
    rewrite Hrow, (drop_S _ _ _ Hrow). cbn [map]. rewrite writes_log_cons.
    rewrite u8_land_mask by reflexivity.
    eapply yields_bind; [apply yields_write|].
    rewrite u8_succ by lia.
    apply (IH (S i) fuel (mkWorld _ _)); lia.
Qed.

Lemma cgram_command_u8 location :
  u8 (Z.lor I2C_LCD_SETCGRAMADDR (Z.shiftl (u8 (Z.land location 0x7)) 3)) =
  Z.lor I2C_LCD_SETCGRAMADDR (Z.shiftl (Z.land location 0x7) 3).
Proof.
  rewrite (u8_land_mask location 0x7) by reflexivity.
  assert (H : 0 <= Z.land location 0x7 < 8).
  { change 0x7 with (Z.ones 3). rewrite Z.land_ones by lia.
    apply Z.mod_pos_bound. lia. }
  assert (Hcases : In (Z.land location 0x7) [0; 1; 2; 3; 4; 5; 6; 7])
    by (cbn [In]; lia).
  cbn [In] in Hcases.
  repeat (destruct Hcases as [<-|Hcases]; [reflexivity|]).
  destruct Hcases.
Qed.

End Glyph.

(** C6. For every location and every 8-row bitmap,
    [I2C_LCD_createChar location charmap] keeps the low three bits of
    [location] (so 9 behaves as 1) and, inside one startWait/stop bracket,
    sends the single command [SETCGRAMADDR | (location' << 3)] and then
    exactly eight data writes, [charmap[i] & 0x1F] for [i = 0..7] in
    order. *)
Theorem createChar_writes_glyph (status : list BusEvent -> Z) (location : Z)
  (charmap : list Z) (w : World) :
  length charmap = 8%nat ->
  I2C_LCD_createChar status location charmap w =
    Done tt
      (mkWorld (lcd w)
         (bus w ++
          bracket
            (command4bit_log (backlight (lcd w))
               (Z.lor I2C_LCD_SETCGRAMADDR (Z.shiftl (Z.land location 0x7) 3))
             ++ writes_log (backlight (lcd w))
                  (map (fun row => Z.land row 0x1F) charmap)))) /\
  length (map (fun row => Z.land row 0x1F) charmap) = 8%nat /\
  I2C_LCD_createChar status location charmap w =
    I2C_LCD_createChar status (Z.land location 0x7) charmap w /\
  I2C_LCD_createChar status 9 charmap w = I2C_LCD_createChar status 1 charmap w.
Proof.
  intros Hlen. split; [|split; [|split]].
  - unfold I2C_LCD_createChar. cbv zeta. rewrite cgram_command_u8.
    eapply yields_eq.
    + apply yields_startWait_bind.
      eapply yields_bind; [exact (yields_command4bit _ _ (mkWorld _ _))|].
      eapply yields_bind.
      * exact (createChar_loop_run status charmap Hlen 8 0 9 (mkWorld _ _)
                 eq_refl ltac:(lia)).
      * exact (yields_stop (mkWorld _ _)).
    + reflexivity.
    + unfold bracket. cbn [lcd bus app drop]. now rewrite <- app_assoc.
  - now rewrite length_map.
  - unfold I2C_LCD_createChar. cbv zeta.
    now rewrite !(u8_land_mask _ 0x7), <- Z.land_assoc by reflexivity.
  - reflexivity.
Qed.

Lemma createChar_writes_glyph_witness :
  I2C_LCD_createChar (fun _ => 1) 9 [0x04; 0x0E; 0x1F; 0xFF; 0; 1; 2; 3]
    (mkWorld lcd_reset []) =
    Done tt
      (mkWorld lcd_reset
         (bracket
            (command4bit_log 0 0x48 ++
             writes_log 0 [0x04; 0x0E; 0x1F; 0x1F; 0; 1; 2; 3]))).
Proof.
  exact (proj1 (createChar_writes_glyph (fun _ => 1) 9
                  [0x04; 0x0E; 0x1F; 0xFF; 0; 1; 2; 3]
                  (mkWorld lcd_reset []) eq_refl)).
Defined.

(** ** Attribute toggles *)

Section Toggles.

Variable status : list BusEvent -> Z.

Lemma toggle_run tg state w :
  yields (run_toggle status tg state) w (toggle_state tg state (lcd w))
         (bracket (command4bit_log (backlight (lcd w))
                     (toggle_command tg (toggle_state tg state (lcd w))))).
Proof.
  destruct w as [s l].
  destruct tg; (eapply yields_eq;
    [ unfold run_toggle, I2C_LCD_display, I2C_LCD_cursor, I2C_LCD_blink,
        I2C_LCD_cursorFixPosition; repeat ystep
    | reflexivity
    | unfold bracket; cbn [app]; now rewrite ?app_nil_r, <- ?app_assoc ]).
Qed.

Lemma toggle_flags_truthy flags mask state :
  toggle_flags flags mask state =
  toggle_flags flags mask (if truthy state then 1 else 0).
Proof. unfold toggle_flags. now destruct (truthy state). Qed.

Lemma toggle_flags_u8 flags mask state :
  toggle_flags flags mask state = toggle_flags (u8 flags) mask state.
Proof.
  unfold toggle_flags. do 2 f_equal. rewrite !u8_land_255.
  rewrite <- !Z.land_assoc. f_equal.
  rewrite (Z.land_comm 255), <- Z.land_assoc. now rewrite Z.land_diag.
Qed.

Lemma toggle_flags_idem flags mask state :
  In mask [I2C_LCD_DISPLAY; I2C_LCD_CURSOR; I2C_LCD_BLINK] ->
  toggle_flags (toggle_flags flags mask state) mask state =
  toggle_flags flags mask state.
Proof.
  intros Hm. apply Z.eqb_eq. fold (toggle_idem_ok mask state flags).
  unfold toggle_idem_ok.
  rewrite (toggle_flags_u8 flags), !(toggle_flags_truthy _ mask state).
  fold (toggle_idem_ok mask (if truthy state then 1 else 0) (u8 flags)).
  generalize (u8_is_u8 flags). generalize (u8 flags). cbn [In] in Hm.
  destruct Hm as [<-|[<-|[<-|[]]]]; destruct (truthy state);
    apply all_u8_spec; vm_compute; reflexivity.
Qed.

Lemma toggle_state_idem tg state s :
  toggle_state tg state (toggle_state tg state s) = toggle_state tg state s.
Proof.
  destruct tg; unfold toggle_state; ysimpl; f_equal;
    apply toggle_flags_idem; cbn; tauto.
Qed.

Lemma toggle_state_backlight tg state s :
  backlight (toggle_state tg state s) = backlight s.
Proof. now destruct tg. Qed.

End Toggles.

(** C8. Each of [display], [cursor], [blink] and [cursorFixPosition] is
    idempotent: for every [state] and every starting world, the call
    leaves a flags byte that a second call with the same [state] leaves
    equal, and both calls send, each in its own bracket, the same command
    byte (the whole flags byte under its opcode).  In particular for
    [cursor(true)]: one [displaycontrol] value, one display-control byte,
    sent twice. *)
Theorem toggles_idempotent (status : list BusEvent -> Z) (tg : Toggle)
  (state : Z) (w : World) :
  exists s1 cmd,
    let t := bracket (command4bit_log (backlight (lcd w)) cmd) in
    run_toggle status tg state w = Done tt (mkWorld s1 (bus w ++ t)) /\
    run_toggle status tg state (mkWorld s1 (bus w ++ t)) =
      Done tt (mkWorld s1 ((bus w ++ t) ++ t)) /\
    cmd = toggle_command tg s1 /\
    s1 = toggle_state tg state (lcd w) /\
    I2C_LCD_cursor status 1 w =
      Done tt
        (mkWorld (toggle_state TCursor 1 (lcd w))
           (bus w ++
            bracket (command4bit_log (backlight (lcd w))
                       (toggle_command TCursor
                          (toggle_state TCursor 1 (lcd w)))))) /\
    Z.testbit (displaycontrol (toggle_state TCursor 1 (lcd w))) 1 = true.
Proof.
  exists (toggle_state tg state (lcd w)),
         (toggle_command tg (toggle_state tg state (lcd w))).
  cbv zeta. split; [apply toggle_run|]. split.
  - pose proof (toggle_run status tg state
                  (mkWorld (toggle_state tg state (lcd w))
                     (bus w ++
                      bracket
                        (command4bit_log (backlight (lcd w))
                           (toggle_command tg
                              (toggle_state tg state (lcd w))))))) as H.
    unfold yields in H. cbn [lcd bus] in H.
    now rewrite toggle_state_idem, toggle_state_backlight in H.
  - split; [reflexivity|]. split; [reflexivity|].
    split; [exact (toggle_run status TCursor 1 w)|].
    unfold toggle_state, set_displaycontrol. cbn [displaycontrol].
    rewrite toggle_flags_u8. generalize (u8_is_u8 (displaycontrol (lcd w))).
    generalize (u8 (displaycontrol (lcd w))).
    apply (all_u8_spec
             (fun x => Z.testbit (toggle_flags x I2C_LCD_CURSOR 1) 1)).
    vm_compute. reflexivity.
Qed.

(** ** Backlight *)

Lemma u8_lor a b : is_u8 a -> is_u8 b -> u8 (Z.lor a b) = Z.lor a b.
Proof.
  intros Ha Hb. rewrite u8_land_255, Z.land_lor_distr_l.
  now rewrite <- !u8_land_255, (u8_id a Ha), (u8_id b Hb).
Qed.

(** C9. [I2C_LCD_backlight state] stores [state] as the backlight flag and
    then, inside one startWait/stop bracket, sends exactly one command,
    DISPLAYCONTROL | displaycontrol, with [displaycontrol] unchanged (its
    nibbles already carry the new backlight bit).  Nothing else changes:
    [displaycontrol], [displaymode], [displayfunction], [numlines],
    [numcols] and the four row offsets are as before. *)
Theorem backlight_keeps_other_state (status : list BusEvent -> Z) (state : Z)
  (w : World) :
  exists s1,
    I2C_LCD_backlight status state w =
      Done tt
        (mkWorld s1
           (bus w ++
            bracket
              (command4bit_log state
                 ((Z.lor I2C_LCD_DISPLAYCONTROL (displaycontrol (lcd w)))
                    mod 256)))) /\
    (is_u8 (displaycontrol (lcd w)) ->
     (Z.lor I2C_LCD_DISPLAYCONTROL (displaycontrol (lcd w))) mod 256 =
     Z.lor I2C_LCD_DISPLAYCONTROL (displaycontrol (lcd w))) /\
    backlight s1 = state /\
    displaycontrol s1 = displaycontrol (lcd w) /\
    displaymode s1 = displaymode (lcd w) /\
    displayfunction s1 = displayfunction (lcd w) /\
    numlines s1 = numlines (lcd w) /\
    numcols s1 = numcols (lcd w) /\
    row_offsets s1 = row_offsets (lcd w).
Proof.
  exists (set_backlight state (lcd w)). split.
  - destruct w as [s l]. eapply yields_eq.
    + unfold I2C_LCD_backlight. repeat ystep.
    + reflexivity.
    + unfold bracket. cbn [app]. now rewrite ?app_nil_r, <- ?app_assoc.
  - split.
    + intros Hdc. apply (u8_lor I2C_LCD_DISPLAYCONTROL _); [|exact Hdc].
      unfold is_u8, I2C_LCD_DISPLAYCONTROL. lia.
    + repeat split.
Qed.

Lemma backlight_keeps_other_state_witness :
  is_u8 (displaycontrol (lcd (after_init (mkWorld lcd_reset []) 16 2))) /\
  (Z.lor I2C_LCD_DISPLAYCONTROL
     (displaycontrol (lcd (after_init (mkWorld lcd_reset []) 16 2)))) mod 256 =
  0x0C.
Proof.
  assert (H : is_u8 (displaycontrol
                       (lcd (after_init (mkWorld lcd_reset []) 16 2))))
    by (cbn; unfold is_u8, I2C_LCD_DISPLAY; lia).
  split; [exact H|].
  destruct (backlight_keeps_other_state (fun _ => 1) I2C_LCD_OFF
              (after_init (mkWorld lcd_reset []) 16 2)) as (s1 & _ & Hcmd & _).
  rewrite (Hcmd H). reflexivity.
Defined.

(** ** Transport statuses *)

Section Statuses.

Variables status1 status2 : list BusEvent -> Z.

Lemma bind_ext {A B} (m1 m2 : Drv A) (k1 k2 : A -> Drv B) w :
  m1 w = m2 w -> (forall a w', k1 a w' = k2 a w') ->
  bind m1 k1 w = bind m2 k2 w.
Proof. unfold bind. intros -> Hk. destruct (m2 w); auto. Qed.

Lemma startWait_discarded {B} a (k1 k2 : Drv B) w :
  (forall w', k1 w' = k2 w') ->
  (I2C_startWait status1 a ;; k1) w = (I2C_startWait status2 a ;; k2) w.
Proof. intros Hk. unfold bind, I2C_startWait. apply Hk. Qed.

Lemma push_status d w : I2C_LCD_push status1 d w = I2C_LCD_push status2 d w.
Proof. now rewrite !yields_push. Qed.

Lemma command4bit_status c w :
  I2C_LCD_command4bit status1 c w = I2C_LCD_command4bit status2 c w.
Proof. now rewrite !yields_command4bit. Qed.

Lemma command8bit_status c w :
  I2C_LCD_command8bit status1 c w = I2C_LCD_command8bit status2 c w.
Proof. now rewrite !yields_command8bit. Qed.

Lemma write_status c w :
  I2C_LCD_write status1 c w = I2C_LCD_write status2 c w.
Proof. now rewrite !yields_write. Qed.

Lemma print_loop_status c : forall fuel i w,
  I2C_LCD_print_loop status1 fuel c i w = I2C_LCD_print_loop status2 fuel c i w.
Proof.
  induction fuel as [|fuel IH]; intros i w; [reflexivity|].
  cbn [I2C_LCD_print_loop]. destruct (c !! Z.to_nat i); [|reflexivity].
  destruct (_ =? 0); [reflexivity|].
  apply bind_ext; [apply write_status|]. intros _ w'. apply IH.
Qed.

Lemma createChar_loop_status charmap : forall fuel i w,
  I2C_LCD_createChar_loop status1 fuel charmap i w =
  I2C_LCD_createChar_loop status2 fuel charmap i w.
Proof.
  induction fuel as [|fuel IH]; intros i w; [reflexivity|].
  cbn [I2C_LCD_createChar_loop]. destruct (i <? 8); [|reflexivity].
  destruct (charmap !! Z.to_nat i); [|reflexivity].
  apply bind_ext; [apply write_status|]. intros _ w'. apply IH.
Qed.

Lemma setCursorWOI2C_status col row w :
  I2C_LCD_setCursorWOI2C status1 col row w =
  I2C_LCD_setCursorWOI2C status2 col row w.
Proof.
  unfold I2C_LCD_setCursorWOI2C.
  apply bind_ext; [reflexivity|]. intros nc w1.
  apply bind_ext; [reflexivity|]. intros nl w2.
  apply bind_ext; [reflexivity|]. intros ro w3.
  destruct ro; [apply command4bit_status|reflexivity].
Qed.

Lemma toggle_status tg state w :
  run_toggle status1 tg state w = run_toggle status2 tg state w.
Proof. now rewrite !toggle_run. Qed.

End Statuses.

Ltac status_step :=
  lazymatch goal with
  | |- bind (I2C_startWait _ _) _ _ = bind (I2C_startWait _ _) _ _ =>
      apply startWait_discarded; intros ?
  | |- bind _ _ _ = bind _ _ _ => apply bind_ext; [|intros ? ?]
  | |- I2C_LCD_push _ _ _ = _ => apply push_status
  | |- I2C_LCD_command4bit _ _ _ = _ => apply command4bit_status
  | |- I2C_LCD_command8bit _ _ _ = _ => apply command8bit_status
  | |- I2C_LCD_write _ _ _ = _ => apply write_status
  | |- I2C_LCD_print_loop _ _ _ _ _ = _ => apply print_loop_status
  | |- I2C_LCD_createChar_loop _ _ _ _ _ = _ => apply createChar_loop_status
  | |- I2C_LCD_setCursorWOI2C _ _ _ _ = _ => apply setCursorWOI2C_status
  | |- _ => reflexivity
  end.

Lemma startWait_spin_acknowledged (ack : nat -> bool) (k : nat) :
  ack k = true -> (forall j, (j < k)%nat -> ack j = false) ->
  forall fuel n, (n <= k < n + fuel)%nat ->
    I2C_startWait_spin ack fuel n = Some (S k).
Proof.
  intros Hk Hbefore. induction fuel as [|fuel IH]; intros n Hn; [lia|].
  cbn [I2C_startWait_spin].
  destruct (Nat.eq_dec n k) as [->|Hne]; [now rewrite Hk|].
  rewrite Hbefore by lia. apply IH. lia.
Qed.

Lemma startWait_spin_blocked (ack : nat -> bool) :
  (forall j, ack j = false) ->
  forall fuel n, I2C_startWait_spin ack fuel n = None.
Proof.
  intros Hnever. induction fuel as [|fuel IH]; intros n; [reflexivity|].
  cbn [I2C_startWait_spin]. now rewrite Hnever.
Qed.

(** C7. For every function of the driver's interface, the outcome (the
    driver state and the whole bus log, so every byte offered to the
    transport) is the same whatever statuses the transport returns: the
    value of each [I2C_write] (and of [I2C_startWait]) is dropped, every
    routine returns [void], and a write is issued once whether or not it
    is acknowledged.  The only retrying is inside [I2C_startWait]: it
    repeats the start condition until the device acknowledges, returns
    then, and keeps spinning while it does not. *)
Theorem statuses_ignored (status1 status2 : list BusEvent -> Z) (fuel : nat)
  (op : Op) (w : World) :
  run_op status1 fuel op w = run_op status2 fuel op w /\
  (forall (ack : nat -> bool) (k : nat),
     ack k = true -> (forall j, (j < k)%nat -> ack j = false) ->
     forall n, (k < n)%nat -> I2C_startWait_spin ack n 0 = Some (S k)) /\
  (forall (ack : nat -> bool),
     (forall j, ack j = false) ->
     forall n, I2C_startWait_spin ack n 0 = None).
Proof.
  split; [|split].
  - destruct op; cbn [run_op];
      unfold I2C_LCD_init, I2C_LCD_clear, I2C_LCD_home, I2C_LCD_setCursor,
        I2C_LCD_print, I2C_LCD_printChar, I2C_LCD_display, I2C_LCD_backlight,
        I2C_LCD_blink, I2C_LCD_cursor, I2C_LCD_leftToRight,
        I2C_LCD_rightToLeft, I2C_LCD_scrollDisplayLeft,
        I2C_LCD_scrollDisplayRight, I2C_LCD_cursorFixPosition,
        I2C_LCD_createChar;
      repeat status_step.
  - intros ack k Hk Hbefore n Hn.
    apply (startWait_spin_acknowledged ack k Hk Hbefore). lia.
  - intros ack Hnever n. now apply startWait_spin_blocked.
Qed.

Lemma statuses_ignored_witness :
  I2C_startWait_spin (fun n => Nat.leb 2 n) 5 0 = Some 3%nat.
Proof.
  refine (proj1 (proj2 (statuses_ignored (fun _ => 0) (fun _ => 1) 0 OpClear
                          (mkWorld lcd_reset [])))
            (fun n => Nat.leb 2 n) 2%nat eq_refl _ 5%nat _).
  - intros j Hj. destruct j as [|[|j]]; [reflexivity|reflexivity|lia].
  - lia.
Defined.

(** * Further properties of the driver *)

(** ** Assertions the bus traffic cannot disturb *)

Lemma hoare_bind {A B} (P Q R : World -> Prop) (m : Drv A) (k : A -> Drv B) :
  hoare P m Q -> (forall a, hoare Q (k a) R) -> hoare P (x <- m ;; k x) R.
Proof.
  unfold hoare, bind. intros Hm Hk w b w' HP Hrun.
  destruct (m w) as [a w1| |] eqn:E; try discriminate.
  exact (Hk a w1 b w' (Hm w a w1 HP E) Hrun).
Qed.

Lemma hoare_weaken {A} (P P' Q Q' : World -> Prop) (m : Drv A) :
  hoare P' m Q' -> (forall w, P w -> P' w) -> (forall w, Q' w -> Q w) ->
  hoare P m Q.
Proof. unfold hoare. eauto. Qed.

Lemma hoare_ret {A} (P : World -> Prop) (a : A) : hoare P (ret a) P.
Proof. unfold hoare, ret. now intros w b w' HP [= _ <-]. Qed.

Lemma hoare_get {A} (P : World -> Prop) (f : LcdState -> A) :
  hoare P (get f) P.
Proof. unfold hoare, get. now intros w b w' HP [= _ <-]. Qed.

Lemma hoare_undefined {A} (P Q : World -> Prop) :
  hoare P (@undefined A) Q.
Proof. unfold hoare, undefined. discriminate. Qed.

Lemma hoare_out_of_fuel {A} (P Q : World -> Prop) :
  hoare P (@out_of_fuel A) Q.
Proof. unfold hoare, out_of_fuel. discriminate. Qed.

Lemma hoare_modify (P Q : World -> Prop) (f : LcdState -> LcdState) :
  (forall w, P w -> Q (mkWorld (f (lcd w)) (bus w))) -> hoare P (modify f) Q.
Proof. unfold hoare, modify. intros H w b w' HP [= _ <-]. auto. Qed.

Section BusBlind.

Variable status : list BusEvent -> Z.

(** An assertion that does not look at the bus log. *)
Variable I : World -> Prop.
Hypothesis I_emit : forall w e, I w -> I (emit e w).

Lemma keeps_startWait a : hoare I (I2C_startWait status a) I.
Proof. unfold hoare, I2C_startWait. intros w b w' HI [= _ <-]. auto. Qed.

Lemma keeps_write d : hoare I (I2C_write status d) I.
Proof. unfold hoare, I2C_write. intros w b w' HI [= _ <-]. auto. Qed.

Lemma keeps_stop : hoare I I2C_stop I.
Proof. unfold hoare, I2C_stop. intros w b w' HI [= _ <-]. auto. Qed.

Lemma keeps_delay_us n : hoare I (_delay_us n) I.
Proof. unfold hoare, _delay_us. intros w b w' HI [= _ <-]. auto. Qed.

Lemma keeps_delay_ms n : hoare I (_delay_ms n) I.
Proof. unfold hoare, _delay_ms. intros w b w' HI [= _ <-]. auto. Qed.

Ltac keeps_step :=
  lazymatch goal with
  | |- hoare _ (bind _ _) _ => eapply hoare_bind; [|intros ?]
  | |- hoare _ (I2C_startWait _ _) _ => apply keeps_startWait
  | |- hoare _ (I2C_write _ _) _ => apply keeps_write
  | |- hoare _ I2C_stop _ => apply keeps_stop
  | |- hoare _ (_delay_us _) _ => apply keeps_delay_us
  | |- hoare _ (_delay_ms _) _ => apply keeps_delay_ms
  | |- hoare _ (get _) _ => apply hoare_get
  | |- hoare _ (ret _) _ => apply hoare_ret
  | |- hoare _ undefined _ => apply hoare_undefined
  | |- hoare _ out_of_fuel _ => apply hoare_out_of_fuel
  end.

Lemma keeps_push d : hoare I (I2C_LCD_push status d) I.
Proof. unfold I2C_LCD_push. repeat keeps_step. Qed.

Lemma keeps_command4bit c : hoare I (I2C_LCD_command4bit status c) I.
Proof.
  unfold I2C_LCD_command4bit.
  eapply hoare_bind; [apply keeps_push|]. intros _. apply keeps_push.
Qed.

Lemma keeps_command8bit c : hoare I (I2C_LCD_command8bit status c) I.
Proof. apply keeps_push. Qed.

Lemma keeps_write_char c : hoare I (I2C_LCD_write status c) I.
Proof.
  unfold I2C_LCD_write.
  eapply hoare_bind; [apply keeps_push|]. intros _. apply keeps_push.
Qed.

Lemma keeps_print_loop c : forall fuel i,
  hoare I (I2C_LCD_print_loop status fuel c i) I.
Proof.
  induction fuel as [|fuel IH]; intros i; cbn [I2C_LCD_print_loop].
  - apply hoare_out_of_fuel.
  - destruct (c !! Z.to_nat i); [|apply hoare_undefined].
    destruct (_ =? 0); [apply hoare_ret|].
    eapply hoare_bind; [apply keeps_write_char|]. intros _. apply IH.
Qed.

Lemma keeps_createChar_loop charmap : forall fuel i,
  hoare I (I2C_LCD_createChar_loop status fuel charmap i) I.
Proof.
  induction fuel as [|fuel IH]; intros i; cbn [I2C_LCD_createChar_loop].
  - apply hoare_out_of_fuel.
  - destruct (i <? 8); [|apply hoare_ret].
    destruct (charmap !! Z.to_nat i); [|apply hoare_undefined].
    eapply hoare_bind; [apply keeps_write_char|]. intros _. apply IH.
Qed.

Lemma keeps_setCursorWOI2C col row :
  hoare I (I2C_LCD_setCursorWOI2C status col row) I.
Proof.
  unfold I2C_LCD_setCursorWOI2C.
  eapply hoare_bind; [apply hoare_get|]. intros nc.
  eapply hoare_bind; [apply hoare_get|]. intros nl.
  eapply hoare_bind; [apply hoare_get|]. intros ro.
  destruct ro; [apply keeps_command4bit|apply hoare_undefined].
Qed.

Ltac keeps_auto :=
  repeat lazymatch goal with
         | |- hoare _ (I2C_LCD_push _ _) _ => apply keeps_push
         | |- hoare _ (I2C_LCD_command4bit _ _) _ => apply keeps_command4bit
         | |- hoare _ (I2C_LCD_command8bit _ _) _ => apply keeps_command8bit
         | |- hoare _ (I2C_LCD_write _ _) _ => apply keeps_write_char
         | |- hoare _ (I2C_LCD_print_loop _ _ _ _) _ => apply keeps_print_loop
         | |- hoare _ (I2C_LCD_createChar_loop _ _ _ _) _ =>
             apply keeps_createChar_loop
         | |- hoare _ (I2C_LCD_setCursorWOI2C _ _ _) _ =>
             apply keeps_setCursorWOI2C
         | |- _ => keeps_step
         end.

(** The functions of the interface that assign to no variable. *)
Lemma keeps_output_op fuel op :
  (forall fld, may_write op fld = false) ->
  hoare I (run_op status fuel op) I.
Proof.
  intros Hop.
  destruct op; cbn [run_op];
    try (specialize (Hop FBacklight); discriminate Hop);
    try (specialize (Hop FDisplaycontrol); discriminate Hop);
    try (specialize (Hop FDisplaymode); discriminate Hop);
    try (specialize (Hop FRowOffsets); discriminate Hop);
    unfold I2C_LCD_clear, I2C_LCD_home, I2C_LCD_setCursor, I2C_LCD_print,
      I2C_LCD_printChar, I2C_LCD_scrollDisplayLeft, I2C_LCD_scrollDisplayRight,
      I2C_LCD_createChar;
    keeps_auto.
Qed.

End BusBlind.

(** ** The driver state after each function *)

Section StateEffect.

Variable status : list BusEvent -> Z.

Lemma init_run_any cols lines w :
  yields (I2C_LCD_init status cols lines) w
         (op_state (OpInit cols lines) (lcd w))
         (init_log (init_displayfunction (displayfunction (lcd w)) lines)).
Proof.
  destruct w as [s l].
  eapply yields_eq.
  - unfold I2C_LCD_init, I2C_LCD_setRowOffsets.
    do 9 ystep.
    eapply yields_bind.
    { instantiate (2 := set_displayfunction
                          (init_displayfunction (displayfunction s) lines)
                          (set_backlight I2C_LCD_ON s)).
      instantiate (1 := []).
      unfold init_displayfunction. destruct (1 <? lines).
      - ystep. apply yields_modify.
      - unfold yields, ret. ysimpl. now rewrite app_nil_r. }
    repeat ystep.
  - ysimpl. unfold op_state. now rewrite vinsert_all4.
  - ysimpl.
    unfold init_log, lcd_addr. cbn [app]. rewrite ?app_nil_r, <- ?app_assoc.
    reflexivity.
Qed.

Lemma backlight_run state w :
  yields (I2C_LCD_backlight status state) w (set_backlight state (lcd w))
         (bracket (command4bit_log state
                     (u8 (Z.lor I2C_LCD_DISPLAYCONTROL
                                (displaycontrol (lcd w)))))).
Proof.
  destruct w as [s l]. eapply yields_eq.
  - unfold I2C_LCD_backlight. repeat ystep.
  - reflexivity.
  - unfold bracket. cbn [app]. now rewrite ?app_nil_r, <- ?app_assoc.
Qed.

Lemma leftToRight_run w :
  yields (I2C_LCD_leftToRight status) w (op_state OpLeftToRight (lcd w))
         (bracket
            (command4bit_log (backlight (lcd w))
               (u8 (Z.lor I2C_LCD_ENTRYMODESET
                          (displaymode (op_state OpLeftToRight (lcd w))))))).
Proof.
  destruct w as [s l]. eapply yields_eq.
  - unfold I2C_LCD_leftToRight. repeat ystep.
  - reflexivity.
  - unfold bracket. cbn [app]. now rewrite ?app_nil_r, <- ?app_assoc.
Qed.

Lemma rightToLeft_run w :
  yields (I2C_LCD_rightToLeft status) w (op_state OpRightToLeft (lcd w))
         (bracket
            (command4bit_log (backlight (lcd w))
               (u8 (Z.lor I2C_LCD_ENTRYMODESET
                          (displaymode (op_state OpRightToLeft (lcd w))))))).
Proof.
  destruct w as [s l]. eapply yields_eq.
  - unfold I2C_LCD_rightToLeft. repeat ystep.
  - reflexivity.
  - unfold bracket. cbn [app]. now rewrite ?app_nil_r, <- ?app_assoc.
Qed.

Lemma setRowOffsets_run row1 row2 row3 row4 w :
  yields (I2C_LCD_setRowOffsets row1 row2 row3 row4) w
         (op_state (OpSetRowOffsets row1 row2 row3 row4) (lcd w)) [].
Proof.
  destruct w as [s l]. eapply yields_eq.
  - unfold I2C_LCD_setRowOffsets. repeat ystep.
  - ysimpl. unfold op_state. now rewrite vinsert_all4.
  - reflexivity.
Qed.

Lemma run_done_lcd (m : Drv unit) w s t w' :
  yields m w s t -> m w = Done tt w' -> lcd w' = s.
Proof. unfold yields. intros -> [= <-]. reflexivity. Qed.

Lemma op_state_effect fuel op w w' :
  run_op status fuel op w = Done tt w' -> lcd w' = op_state op (lcd w).
Proof.
  assert (Hout : (forall fld, may_write op fld = false) ->
                 run_op status fuel op w = Done tt w' ->
                 lcd w' = lcd w).
  { intros Hop Hrun.
    exact (keeps_output_op status (fun x => lcd x = lcd w)
             (fun _ _ H => H) fuel op Hop w tt w' eq_refl Hrun). }
  destruct op; cbn [run_op op_state];
    try (apply Hout; intros []; reflexivity).
  - apply (run_done_lcd _ _ _ _ _ (init_run_any cols lines w)).
  - apply (run_done_lcd _ _ _ _ _ (toggle_run status TDisplay state w)).
  - apply (run_done_lcd _ _ _ _ _ (backlight_run state w)).
  - apply (run_done_lcd _ _ _ _ _ (toggle_run status TBlink state w)).
  - apply (run_done_lcd _ _ _ _ _ (toggle_run status TCursor state w)).
  - apply (run_done_lcd _ _ _ _ _ (leftToRight_run w)).
  - apply (run_done_lcd _ _ _ _ _ (rightToLeft_run w)).
  - apply (run_done_lcd _ _ _ _ _
             (toggle_run status TCursorFixPosition state w)).
  - apply (run_done_lcd _ _ _ _ _ (setRowOffsets_run row1 row2 row3 row4 w)).
Qed.

End StateEffect.

(** X1. Every function of the interface assigns only to the variables
    listed for it: [init] to all seven; [backlight] to [backlight];
    [display], [cursor] and [blink] to [displaycontrol]; [leftToRight],
    [rightToLeft] and [cursorFixPosition] to [displaymode];
    [setRowOffsets] to [row_offsets]; the thirteen others to none.
    Whenever a call returns, every other variable has the value it had
    before; in particular the geometry is set by [init] alone. *)
Theorem variables_assigned_only_by (status : list BusEvent -> Z) (fuel : nat)
  (op : Op) (fld : Field) (w w' : World) :
  may_write op fld = false ->
  run_op status fuel op w = Done tt w' ->
  same_field fld (lcd w) (lcd w').
Proof.
  intros Hfld Hrun. rewrite (op_state_effect status fuel op w w' Hrun).
  destruct op; destruct fld; try discriminate Hfld; reflexivity.
Qed.

Lemma variables_assigned_only_by_witness :
  let w1 := after_init (mkWorld lcd_reset []) 20 4 in
  let w2 :=
    mkWorld (toggle_state TCursor 1 (lcd w1))
      (bus w1 ++
       bracket (command4bit_log (backlight (lcd w1))
                  (toggle_command TCursor (toggle_state TCursor 1 (lcd w1))))) in
  may_write (OpCursor 1) FNumlines = false /\
  run_op (fun _ => 1) 0 (OpCursor 1) w1 = Done tt w2 /\
  same_field FNumlines (lcd w1) (lcd w2).
Proof.
  intros w1 w2.
  assert (Hrun : run_op (fun _ => 1) 0 (OpCursor 1) w1 = Done tt w2)
    by exact (toggle_run (fun _ => 1) TCursor 1 w1).
  split; [reflexivity|]. split; [exact Hrun|].
  exact (variables_assigned_only_by (fun _ => 1) 0 (OpCursor 1) FNumlines
           w1 w2 eq_refl Hrun).
Defined.

(** ** Every call is one well-formed transaction *)

Lemma wire_run_app bl p t1 t2 :
  wire_run bl p (t1 ++ t2) =
  match wire_run bl p t1 with
  | Some q => wire_run bl q t2
  | None => None
  end.
Proof.
  revert p. induction t1 as [|e t1 IH]; intros p; [reflexivity|].
  cbn [app wire_run]. destruct (wire_step bl p e); [apply IH|reflexivity].
Qed.

Lemma wire_step_not_before bl p e q :
  p <> Before -> wire_step bl p e = Some q -> q <> Before.
Proof.
  intros Hp H. destruct p; [contradiction| | | |]; destruct e;
    cbn [wire_step] in H;
    repeat match type of H with
           | context [if ?c then _ else _] => destruct c
           end; try discriminate; injection H as <-; discriminate.
Qed.

Lemma wire_run_not_before bl t :
  forall p, p <> Before -> wire_run bl p t <> Some Before.
Proof.
  induction t as [|e t IH]; intros p Hp; cbn [wire_run].
  - congruence.
  - destruct (wire_step bl p e) as [q|] eqn:E; [|discriminate].
    apply IH. exact (wire_step_not_before bl p e q Hp E).
Qed.

(** Before the start condition the log holds nothing that depends on the
    backlight flag. *)
Lemma wire_run_before bl bl' t :
  wire_run bl Before t = Some Before -> wire_run bl' Before t = Some Before.
Proof.
  induction t as [|e t IH]; intros H; [exact H|].
  cbn [wire_run] in *.
  destruct e; cbn [wire_step] in *; try discriminate.
  - destruct (addr =? I2C_LCD_ADDRESS); [|discriminate].
    now apply wire_run_not_before in H.
  - now apply IH.
Qed.

Lemma push_wire_ok_truthy bl d :
  push_wire_ok bl d = push_wire_ok (if truthy bl then 1 else 0) d.
Proof.
  unfold push_wire_ok, push_log, strobe_hi, strobe_lo, wire_run, wire_step.
  now destruct (truthy bl).
Qed.

Lemma wire_push_log bl d :
  is_u8 d -> Z.testbit d 1 = false ->
  wire_run bl Ready (push_log bl d) = Some Ready.
Proof.
  intros Hd Hrw.
  assert (H : push_wire_ok bl d = true).
  { rewrite push_wire_ok_truthy. clear Hrw. revert d Hd.
    destruct (truthy bl); apply all_u8_spec; vm_compute; reflexivity. }
  unfold push_wire_ok in H. rewrite Hrw in H. cbn [orb] in H.
  destruct (wire_run bl Ready (push_log bl d)) as [[]|]; try discriminate H.
  reflexivity.
Qed.

(** The payloads of [command4bit], [command8bit] and [write] have the read
    bit clear. *)
Lemma high_nibble_rw c : Z.testbit (u8 (Z.land c 0xF0)) 1 = false.
Proof.
  rewrite u8_land_255, !Z.land_spec.
  change (Z.testbit 0xF0 1) with false. now rewrite andb_false_r.
Qed.

Lemma low_nibble_rw c : Z.testbit (u8 (Z.shiftl c 4)) 1 = false.
Proof.
  rewrite u8_land_255, Z.land_spec, Z.shiftl_spec_low by lia. reflexivity.
Qed.

Lemma high_nibble_data_rw c :
  Z.testbit (u8 (Z.lor (Z.land c 0xF0) I2C_LCD_RS)) 1 = false.
Proof.
  rewrite u8_land_255, Z.land_spec, Z.lor_spec, Z.land_spec.
  change (Z.testbit 0xF0 1) with false.
  change (Z.testbit I2C_LCD_RS 1) with false.
  now rewrite andb_false_r.
Qed.

Lemma low_nibble_data_rw c :
  Z.testbit (u8 (Z.lor (Z.shiftl c 4) I2C_LCD_RS)) 1 = false.
Proof.
  rewrite u8_land_255, Z.land_spec, Z.lor_spec, Z.shiftl_spec_low by lia.
  reflexivity.
Qed.

Section Wire.

Variable status : list BusEvent -> Z.
Variable l0 : list BusEvent.








Lemma at_push d :
  is_u8 d -> Z.testbit d 1 = false ->
  hoare (at_phase l0 Ready) (I2C_LCD_push status d) (at_phase l0 Ready).
Proof.
  intros Hd Hrw w a w' (t & Hbus & Hrun) Hpush.
  rewrite (yields_push status d w) in Hpush. injection Hpush as Hw.
  subst w'.
  exists (t ++ push_log (backlight (lcd w)) d). cbn [lcd bus]. split.
  - now rewrite Hbus, app_assoc.
  - rewrite wire_run_app, Hrun. now apply wire_push_log.
Qed.

Lemma at_command8bit c :
  hoare (at_phase l0 Ready) (I2C_LCD_command8bit status c) (at_phase l0 Ready).
Proof. apply at_push; [apply u8_is_u8|apply high_nibble_rw]. Qed.

Lemma at_command4bit c :
  hoare (at_phase l0 Ready) (I2C_LCD_command4bit status c) (at_phase l0 Ready).
Proof.
  unfold I2C_LCD_command4bit. eapply hoare_bind.
  - apply at_push; [apply u8_is_u8|apply high_nibble_rw].
  - intros _. apply at_push; [apply u8_is_u8|apply low_nibble_rw].
Qed.

Lemma at_write c :
  hoare (at_phase l0 Ready) (I2C_LCD_write status c) (at_phase l0 Ready).
Proof.
  unfold I2C_LCD_write. eapply hoare_bind.
  - apply at_push; [apply u8_is_u8|apply high_nibble_data_rw].
  - intros _. apply at_push; [apply u8_is_u8|apply low_nibble_data_rw].
Qed.



Lemma at_setCursorWOI2C col row :
  hoare (at_phase l0 Ready) (I2C_LCD_setCursorWOI2C status col row)
        (at_phase l0 Ready).
Proof.
  unfold I2C_LCD_setCursorWOI2C.
  eapply hoare_bind; [apply hoare_get|]. intros nc.
  eapply hoare_bind; [apply hoare_get|]. intros nl.
  eapply hoare_bind; [apply hoare_get|]. intros ro.
  destruct ro; [apply at_command4bit|apply hoare_undefined].
Qed.



End Wire.

(** ** Calls that always return *)

Lemma returns_bind {A B} (m : Drv A) (k : A -> Drv B) :
  returns m -> (forall a, returns (k a)) -> returns (x <- m ;; k x).
Proof.
  intros Hm Hk w. destruct (Hm w) as (a & w1 & E).
  destruct (Hk a w1) as (b & w2 & E2). exists b, w2.
  unfold bind. now rewrite E.
Qed.

Lemma returns_yields (m : Drv unit) :
  (forall w, exists s t, yields m w s t) -> returns m.
Proof.
  intros H w. destruct (H w) as (s & t & E). now exists tt, (mkWorld s (bus w ++ t)).
Qed.

Section Returns.

Variable status : list BusEvent -> Z.

Lemma returns_startWait a : returns (I2C_startWait status a).
Proof. intros w. unfold I2C_startWait. eauto. Qed.

Lemma returns_stop : returns I2C_stop.
Proof. intros w. unfold I2C_stop. eauto. Qed.

Lemma returns_get {A} (f : LcdState -> A) : returns (get f).
Proof. intros w. unfold get. eauto. Qed.

Lemma returns_modify f : returns (modify f).
Proof. intros w. unfold modify. eauto. Qed.

Lemma returns_command4bit c : returns (I2C_LCD_command4bit status c).
Proof. apply returns_yields. intros w. eexists _, _. apply yields_command4bit. Qed.

Lemma returns_command8bit c : returns (I2C_LCD_command8bit status c).
Proof. apply returns_yields. intros w. eexists _, _. apply yields_command8bit. Qed.

Lemma returns_write c : returns (I2C_LCD_write status c).
Proof. apply returns_yields. intros w. eexists _, _. apply yields_write. Qed.

Lemma returns_push d : returns (I2C_LCD_push status d).
Proof. apply returns_yields. intros w. eexists _, _. apply yields_push. Qed.

Lemma returns_bracket c :
  returns (I2C_startWait status (u8 (Z.land I2C_LCD_ADDRESS (Z.lnot I2C_WRITE))) ;;
           I2C_LCD_command4bit status c ;; I2C_stop).
Proof.
  apply returns_bind; [apply returns_startWait|]. intros _.
  apply returns_bind; [apply returns_command4bit|]. intros _.
  apply returns_stop.
Qed.

Ltac returns_by lem :=
  apply returns_yields; intros ?; eexists _, _; apply lem.

Lemma returns_plain_op fuel op :
  reads_array op = false -> returns (run_op status fuel op).
Proof.
  intros Hop. destruct op; try discriminate Hop; cbn [run_op].
  - returns_by init_run_any.
  - apply returns_bracket.
  - returns_by printChar_run.
  - returns_by (toggle_run status TDisplay).
  - returns_by backlight_run.
  - returns_by (toggle_run status TBlink).
  - returns_by (toggle_run status TCursor).
  - returns_by leftToRight_run.
  - returns_by rightToLeft_run.
  - apply returns_bracket.
  - apply returns_bracket.
  - returns_by (toggle_run status TCursorFixPosition).
  - apply returns_write.
  - apply returns_command4bit.
  - apply returns_command8bit.
  - returns_by setRowOffsets_run.
  - apply returns_push.
Qed.

End Returns.




Section Encoding_layer.

Variable status : list BusEvent -> Z.

(** The bus log of a function of the encoding layer starts with a byte
    write. *)
Lemma encoding_log fuel op w w' :
  is_encoding op = true ->
  run_op status fuel op w = Done tt w' ->
  exists d t, bus w' = bus w ++ EvWrite d :: t /\ lcd w' = lcd w.
Proof.
  intros Hop Hrun. destruct op; try discriminate Hop; cbn [run_op] in Hrun.
  - destruct (row_offsets_at (lcd w) (row_index (lcd w) row)) as [off|] eqn:E.
    + rewrite (setCursorWOI2C_defined status col row off w E) in Hrun.
      injection Hrun as <-. eexists _, _. split; reflexivity.
    + now rewrite (setCursorWOI2C_undefined status col row w E) in Hrun.
  - rewrite (yields_write status c w) in Hrun.
    injection Hrun as <-. eexists _, _. split; reflexivity.
  - rewrite (yields_command4bit status cmd w) in Hrun.
    injection Hrun as <-. eexists _, _. split; reflexivity.
  - rewrite (yields_command8bit status cmd w) in Hrun.
    injection Hrun as <-. eexists _, _. split; reflexivity.
Qed.

Lemma at_encoding l0 fuel op :
  is_encoding op = true ->
  hoare (at_phase l0 Ready) (run_op status fuel op) (at_phase l0 Ready).
Proof.
  intros Hop. destruct op; try discriminate Hop; cbn [run_op].
  - apply at_setCursorWOI2C.
  - apply at_write.
  - apply at_command4bit.
  - apply at_command8bit.
Qed.

End Encoding_layer.

(** X3. [write], [command4bit], [command8bit] and [setCursorWOI2C] work
    inside a transaction their caller has opened: started with the
    transaction open and the enable line low they leave it so, and leave
    every variable as it was.  Started with no transaction open they write
    their bytes all the same, outside any transaction: the log is then
    at no phase of the discipline.  The first three return from every
    state. *)
Theorem encoding_layer_needs_open_transaction (status : list BusEvent -> Z)
  (fuel : nat) (op : Op) (l0 : list BusEvent) (w w' : World) :
  is_encoding op = true ->
  run_op status fuel op w = Done tt w' ->
  lcd w' = lcd w /\
  (at_phase l0 Ready w -> at_phase l0 Ready w') /\
  (at_phase l0 Before w -> forall p, ~ at_phase l0 p w') /\
  (reads_array op = false ->
   forall w0, exists w1, run_op status fuel op w0 = Done tt w1).
Proof.
  intros Hop Hrun.
  destruct (encoding_log status fuel op w w' Hop Hrun) as (d & t & Hbus & Hlcd).
  split; [exact Hlcd|]. split; [|split].
  - intros Hready. exact (at_encoding status l0 fuel op Hop w tt w' Hready Hrun).
  - intros (t1 & Hbus1 & Hrun1) p (t2 & Hbus2 & Hrun2).
    rewrite Hbus, Hbus1, <- app_assoc in Hbus2.
    apply app_inv_head in Hbus2. subst t2.
    rewrite wire_run_app in Hrun2.
    rewrite (wire_run_before _ (backlight (lcd w')) t1 Hrun1) in Hrun2.
    discriminate Hrun2.
  - intros Hplain w0.
    destruct (returns_plain_op status fuel op Hplain w0) as ([] & w1 & E).
    now exists w1.
Qed.

Lemma encoding_layer_needs_open_transaction_witness :
  let w := mkWorld lcd_reset [EvStartWait I2C_LCD_ADDRESS] in
  let w' := mkWorld lcd_reset
              ([EvStartWait I2C_LCD_ADDRESS] ++ write_log 0 0x41) in
  is_encoding (OpWrite 0x41) = true /\
  run_op (fun _ => 1) 0 (OpWrite 0x41) w = Done tt w' /\
  at_phase [] Ready w /\
  at_phase [] Ready w'.
Proof.
  intros w w'.
  assert (Hrun : run_op (fun _ => 1) 0 (OpWrite 0x41) w = Done tt w')
    by exact (yields_write (fun _ => 1) 0x41 w).
  assert (Hready : at_phase [] Ready w).
  { exists [EvStartWait I2C_LCD_ADDRESS]. split; reflexivity. }
  split; [reflexivity|]. split; [exact Hrun|]. split; [exact Hready|].
  exact (proj1 (proj2 (encoding_layer_needs_open_transaction (fun _ => 1) 0
                         (OpWrite 0x41) [] w w' eq_refl Hrun)) Hready).
Defined.

(** ** One bit per attribute *)

Lemma testbit_u8_cases (x y : Z) :
  is_u8 x -> is_u8 y ->
  (forall i, In i [0; 1; 2; 3; 4; 5; 6; 7] -> Z.testbit x i = Z.testbit y i) ->
  forall i, Z.testbit x i = Z.testbit y i.
Proof.
  intros Hx Hy H i.
  destruct (Z.lt_ge_cases i 0); [now rewrite !Z.testbit_neg_r|].
  destruct (Z.lt_ge_cases i 8).
  - apply H. cbn [In]. lia.
  - now rewrite !is_u8_testbit_high.
Qed.

Lemma toggle_bit_ok_truthy mask bit state i flags :
  toggle_bit_ok mask bit state i flags =
  toggle_bit_ok mask bit (if truthy state then 1 else 0) i flags.
Proof. unfold toggle_bit_ok, toggle_flags. now destruct (truthy state). Qed.

Lemma toggle_flags_is_u8 flags mask state : is_u8 (toggle_flags flags mask state).
Proof. apply u8_is_u8. Qed.

Lemma toggle_flags_testbit tg state flags i :
  is_u8 flags -> 0 <= i < 8 ->
  Z.testbit (toggle_flags flags (toggle_mask tg) state) i =
  if i =? toggle_bit tg then truthy state else Z.testbit flags i.
Proof.
  intros Hf Hi. apply eqb_prop.
  fold (toggle_bit_ok (toggle_mask tg) (toggle_bit tg) state i flags).
  rewrite toggle_bit_ok_truthy. revert flags Hf.
  assert (Hcases : In i [0; 1; 2; 3; 4; 5; 6; 7]) by (cbn [In]; lia).
  cbn [In] in Hcases.
  destruct tg; destruct (truthy state);
    repeat (destruct Hcases as [<-|Hcases];
            [apply all_u8_spec; vm_compute; reflexivity|]);
    destruct Hcases.
Qed.

Lemma testbit_u8_low x i : 0 <= i < 8 -> Z.testbit (u8 x) i = Z.testbit x i.
Proof.
  intros Hi. unfold u8. change 256 with (2 ^ 8).
  apply Z.mod_pow2_bits_low. lia.
Qed.

Lemma toggle_flags_bits tg state flags i :
  0 <= i < 8 ->
  Z.testbit (toggle_flags flags (toggle_mask tg) state) i =
  if i =? toggle_bit tg then truthy state else Z.testbit flags i.
Proof.
  intros Hi.
  rewrite toggle_flags_u8, toggle_flags_testbit by (auto using u8_is_u8).
  now rewrite testbit_u8_low.
Qed.

Lemma toggle_flags_overwrite tg a b flags :
  toggle_flags (toggle_flags flags (toggle_mask tg) a) (toggle_mask tg) b =
  toggle_flags flags (toggle_mask tg) b.
Proof.
  apply Z.bits_inj'. intros i _.
  apply testbit_u8_cases; try apply toggle_flags_is_u8.
  intros j Hj. assert (Hj' : 0 <= j < 8) by (cbn [In] in Hj; lia).
  rewrite !toggle_flags_bits by exact Hj'. now destruct (j =? toggle_bit tg).
Qed.

Lemma toggle_flags_commute tg1 tg2 a b flags :
  toggle_bit tg1 <> toggle_bit tg2 ->
  toggle_flags (toggle_flags flags (toggle_mask tg2) b) (toggle_mask tg1) a =
  toggle_flags (toggle_flags flags (toggle_mask tg1) a) (toggle_mask tg2) b.
Proof.
  intros Hne. apply Z.bits_inj'. intros i _.
  apply testbit_u8_cases; try apply toggle_flags_is_u8.
  intros j Hj. assert (Hj' : 0 <= j < 8) by (cbn [In] in Hj; lia).
  rewrite !toggle_flags_bits by exact Hj'.
  destruct (Z.eqb_spec j (toggle_bit tg1)), (Z.eqb_spec j (toggle_bit tg2));
    congruence.
Qed.

Lemma toggle_state_overwrite tg a b s :
  toggle_state tg b (toggle_state tg a s) = toggle_state tg b s.
Proof.
  destruct tg; unfold toggle_state, set_displaycontrol, set_displaymode;
    cbn [backlight numlines numcols displayfunction displaycontrol
         displaymode row_offsets]; f_equal.
  - apply (toggle_flags_overwrite TDisplay).
  - apply (toggle_flags_overwrite TCursor).
  - apply (toggle_flags_overwrite TBlink).
  - apply (toggle_flags_overwrite TCursorFixPosition).
Qed.

Lemma toggle_state_commute tg1 tg2 a b s :
  tg1 <> tg2 ->
  toggle_state tg1 a (toggle_state tg2 b s) =
  toggle_state tg2 b (toggle_state tg1 a s).
Proof.
  intros Hne.
  destruct tg1, tg2; try contradiction;
    unfold toggle_state, set_displaycontrol, set_displaymode;
    cbn [backlight numlines numcols displayfunction displaycontrol
         displaymode row_offsets]; try reflexivity; f_equal.
  - apply (toggle_flags_commute TDisplay TCursor). discriminate.
  - apply (toggle_flags_commute TDisplay TBlink). discriminate.
  - apply (toggle_flags_commute TCursor TDisplay). discriminate.
  - apply (toggle_flags_commute TCursor TBlink). discriminate.
  - apply (toggle_flags_commute TBlink TDisplay). discriminate.
  - apply (toggle_flags_commute TBlink TCursor). discriminate.
Qed.

Lemma toggle_twice_run (status : list BusEvent -> Z) tg1 tg2 a b w :
  exists t,
    yields (run_toggle status tg1 a ;; run_toggle status tg2 b) w
           (toggle_state tg2 b (toggle_state tg1 a (lcd w))) t.
Proof.
  eexists. eapply yields_bind; [apply toggle_run|].
  exact (toggle_run status tg2 b (mkWorld _ _)).
Qed.

(** X4. [display], [cursor], [blink] and [cursorFixPosition] each rewrite
    one bit of a stored flags byte and nothing else of it: after the call
    the toggle's own bit (2, 1, 0 of [displaycontrol]; 0 of [displaymode])
    is the truth value of [state], every other bit is as before.  Calling
    the same toggle again with another state leaves the driver state of
    that last call alone: the last call wins. *)
Theorem toggle_rewrites_one_bit (status : list BusEvent -> Z) (tg : Toggle)
  (a b : Z) (w : World) :
  is_u8 (toggle_field tg (lcd w)) ->
  exists w1 w2,
    run_toggle status tg b w = Done tt w1 /\
    (forall i,
       Z.testbit (toggle_field tg (lcd w1)) i =
       if i =? toggle_bit tg then truthy b
       else Z.testbit (toggle_field tg (lcd w)) i) /\
    (run_toggle status tg a ;; run_toggle status tg b) w = Done tt w2 /\
    lcd w2 = lcd w1.
Proof.
  intros Hf.
  destruct (toggle_twice_run status tg tg a b w) as (t & Htwice).
  eexists _, _. split; [apply toggle_run|]. split; [|split; [exact Htwice|]].
  - cbn [lcd]. intros i.
    assert (Hfield : toggle_field tg (toggle_state tg b (lcd w)) =
                     toggle_flags (toggle_field tg (lcd w)) (toggle_mask tg) b)
      by now destruct tg.
    rewrite Hfield.
    destruct (Z.lt_ge_cases i 0) as [Hneg|Hpos].
    { rewrite !Z.testbit_neg_r by lia.
      destruct (Z.eqb_spec i (toggle_bit tg)); [|reflexivity].
      destruct tg; cbn in *; lia. }
    destruct (Z.lt_ge_cases i 8) as [Hlow|Hhigh].
    + now apply toggle_flags_bits.
    + rewrite !is_u8_testbit_high by (auto using toggle_flags_is_u8).
      destruct (Z.eqb_spec i (toggle_bit tg)); [|reflexivity].
      destruct tg; cbn in *; lia.
  - cbn [lcd]. apply toggle_state_overwrite.
Qed.

Lemma toggle_rewrites_one_bit_witness :
  is_u8 (toggle_field TCursor (lcd (after_init (mkWorld lcd_reset []) 16 2))) /\
  exists w1,
    run_toggle (fun _ => 1) TCursor 1 (after_init (mkWorld lcd_reset []) 16 2) =
      Done tt w1 /\
    displaycontrol (lcd w1) = 0x06.
Proof.
  assert (H : is_u8 (toggle_field TCursor
                       (lcd (after_init (mkWorld lcd_reset []) 16 2))))
    by (cbn; unfold is_u8, I2C_LCD_DISPLAY; lia).
  split; [exact H|].
  destruct (toggle_rewrites_one_bit (fun _ => 1) TCursor 0 1
              (after_init (mkWorld lcd_reset []) 16 2) H)
    as (w1 & w2 & Hrun & Hbits & _).
  exists w1. split; [exact Hrun|].
  rewrite (toggle_run (fun _ => 1) TCursor 1
             (after_init (mkWorld lcd_reset []) 16 2)) in Hrun.
  injection Hrun as <-. reflexivity.
Defined.

(** X5. Two different toggles commute on the driver state: whichever of
    the two calls comes first, the variables end up the same (the bus
    sees the two commands in the order of the calls). *)
Theorem toggles_commute (status : list BusEvent -> Z) (tg1 tg2 : Toggle)
  (a b : Z) (w : World) :
  tg1 <> tg2 ->
  exists w1 w2,
    (run_toggle status tg1 a ;; run_toggle status tg2 b) w = Done tt w1 /\
    (run_toggle status tg2 b ;; run_toggle status tg1 a) w = Done tt w2 /\
    lcd w1 = lcd w2.
Proof.
  intros Hne.
  destruct (toggle_twice_run status tg1 tg2 a b w) as (t1 & H1).
  destruct (toggle_twice_run status tg2 tg1 b a w) as (t2 & H2).
  eexists _, _. split; [exact H1|]. split; [exact H2|].
  cbn [lcd]. symmetry. now apply toggle_state_commute.
Qed.

Lemma toggles_commute_witness :
  TCursor <> TBlink /\
  exists w1 w2,
    (run_toggle (fun _ => 1) TCursor 1 ;; run_toggle (fun _ => 1) TBlink 1)
      (mkWorld lcd_reset []) = Done tt w1 /\
    (run_toggle (fun _ => 1) TBlink 1 ;; run_toggle (fun _ => 1) TCursor 1)
      (mkWorld lcd_reset []) = Done tt w2 /\
    lcd w1 = lcd w2.
Proof.
  assert (H : TCursor <> TBlink) by discriminate.
  split; [exact H|].
  exact (toggles_commute (fun _ => 1) TCursor TBlink 1 1
           (mkWorld lcd_reset []) H).
Defined.

(** ** Entry direction *)

Lemma direction_bits (left : bool) flags i :
  is_u8 flags -> 0 <= i < 8 ->
  Z.testbit (if left
             then u8 (Z.lor flags I2C_LCD_ENTRYLEFT)
             else u8 (Z.land flags (Z.lnot I2C_LCD_ENTRYLEFT))) i =
  if i =? 1 then left else Z.testbit flags i.
Proof.
  intros Hf Hi. apply eqb_prop. fold (direction_bit_ok left i flags).
  revert flags Hf.
  assert (Hcases : In i [0; 1; 2; 3; 4; 5; 6; 7]) by (cbn [In]; lia).
  cbn [In] in Hcases.
  destruct left;
    repeat (destruct Hcases as [<-|Hcases];
            [apply all_u8_spec; vm_compute; reflexivity|]);
    destruct Hcases.
Qed.

Lemma direction_all_bits (left : bool) flags i :
  is_u8 flags ->
  Z.testbit (if left
             then u8 (Z.lor flags I2C_LCD_ENTRYLEFT)
             else u8 (Z.land flags (Z.lnot I2C_LCD_ENTRYLEFT))) i =
  if i =? 1 then left else Z.testbit flags i.
Proof.
  intros Hf.
  destruct (Z.lt_ge_cases i 0) as [Hneg|Hpos].
  { rewrite !Z.testbit_neg_r by lia. destruct (Z.eqb_spec i 1); [lia|easy]. }
  destruct (Z.lt_ge_cases i 8) as [Hlow|Hhigh].
  - now apply direction_bits.
  - rewrite (is_u8_testbit_high flags) by assumption.
    destruct (Z.eqb_spec i 1); [lia|].
    apply is_u8_testbit_high; [|assumption].
    destruct left; apply u8_is_u8.
Qed.

Lemma direction_overwrite (l1 l2 : bool) flags :
  is_u8 flags ->
  (if l2
   then u8 (Z.lor (if l1
                   then u8 (Z.lor flags I2C_LCD_ENTRYLEFT)
                   else u8 (Z.land flags (Z.lnot I2C_LCD_ENTRYLEFT)))
                  I2C_LCD_ENTRYLEFT)
   else u8 (Z.land (if l1
                    then u8 (Z.lor flags I2C_LCD_ENTRYLEFT)
                    else u8 (Z.land flags (Z.lnot I2C_LCD_ENTRYLEFT)))
                   (Z.lnot I2C_LCD_ENTRYLEFT))) =
  (if l2
   then u8 (Z.lor flags I2C_LCD_ENTRYLEFT)
   else u8 (Z.land flags (Z.lnot I2C_LCD_ENTRYLEFT))).
Proof.
  intros Hf. apply Z.bits_inj'. intros i _.
  rewrite (direction_all_bits l2 flags i Hf).
  rewrite (direction_all_bits l2 _ i) by (destruct l1; apply u8_is_u8).
  rewrite (direction_all_bits l1 flags i Hf).
  now destruct (i =? 1).
Qed.

(** X6. [leftToRight] sets and [rightToLeft] clears bit 1 of
    [displaymode] and leave its other bits, the auto-shift bit among
    them, as they were; each sends ENTRYMODESET | displaymode in a
    transaction of its own.  Whichever is called last decides:
    [rightToLeft] then [leftToRight] leaves the state of [leftToRight]
    alone, and the other way round. *)
Theorem entry_direction_is_bit_one (status : list BusEvent -> Z) (w : World) :
  is_u8 (displaymode (lcd w)) ->
  exists wl wr wrl wlr,
    I2C_LCD_leftToRight status w = Done tt wl /\
    I2C_LCD_rightToLeft status w = Done tt wr /\
    (forall i,
       Z.testbit (displaymode (lcd wl)) i =
       if i =? 1 then true else Z.testbit (displaymode (lcd w)) i) /\
    (forall i,
       Z.testbit (displaymode (lcd wr)) i =
       if i =? 1 then false else Z.testbit (displaymode (lcd w)) i) /\
    bus wl =
      bus w ++ bracket (command4bit_log (backlight (lcd w))
                          ((Z.lor I2C_LCD_ENTRYMODESET (displaymode (lcd wl)))
                             mod 256)) /\
    bus wr =
      bus w ++ bracket (command4bit_log (backlight (lcd w))
                          ((Z.lor I2C_LCD_ENTRYMODESET (displaymode (lcd wr)))
                             mod 256)) /\
    (I2C_LCD_rightToLeft status ;; I2C_LCD_leftToRight status) w = Done tt wrl /\
    lcd wrl = lcd wl /\
    (I2C_LCD_leftToRight status ;; I2C_LCD_rightToLeft status) w = Done tt wlr /\
    lcd wlr = lcd wr.
Proof.
  intros Hdm.
  eexists _, _, _, _.
  split; [apply leftToRight_run|]. split; [apply rightToLeft_run|].
  split; [intros i; exact (direction_all_bits true _ i Hdm)|].
  split; [intros i; exact (direction_all_bits false _ i Hdm)|].
  split; [reflexivity|]. split; [reflexivity|].
  split.
  { eapply yields_bind; [apply rightToLeft_run|].
    exact (leftToRight_run status (mkWorld _ _)). }
  split.
  { cbn [lcd op_state]. unfold set_displaymode.
    cbn [backlight numlines numcols displayfunction displaycontrol
         displaymode row_offsets].
    f_equal. exact (direction_overwrite false true _ Hdm). }
  split.
  { eapply yields_bind; [apply leftToRight_run|].
    exact (rightToLeft_run status (mkWorld _ _)). }
  cbn [lcd op_state]. unfold set_displaymode.
  cbn [backlight numlines numcols displayfunction displaycontrol
       displaymode row_offsets].
  f_equal. exact (direction_overwrite true false _ Hdm).
Qed.

Lemma entry_direction_is_bit_one_witness :
  is_u8 (displaymode (lcd (after_init (mkWorld lcd_reset []) 16 2))) /\
  exists wr,
    I2C_LCD_rightToLeft (fun _ => 1) (after_init (mkWorld lcd_reset []) 16 2) =
      Done tt wr /\
    displaymode (lcd wr) = 0.
Proof.
  assert (H : is_u8 (displaymode (lcd (after_init (mkWorld lcd_reset []) 16 2))))
    by (change (is_u8 2); unfold is_u8; lia).
  split; [exact H|].
  destruct (entry_direction_is_bit_one (fun _ => 1)
              (after_init (mkWorld lcd_reset []) 16 2) H)
    as (wl & wr & wrl & wlr & _ & Hr & _).
  exists wr. split; [exact Hr|].
  rewrite (rightToLeft_run (fun _ => 1)
             (after_init (mkWorld lcd_reset []) 16 2)) in Hr.
  injection Hr as <-. reflexivity.
Defined.

(** ** Where the cursor goes *)

Lemma ddram_command_7bit a :
  0 <= a < 128 -> u8 (Z.lor I2C_LCD_SETDDRAMADDR a) = 128 + a.
Proof.
  intros Ha.
  assert (H : lor_128_ok a = true).
  { revert a Ha. intros a Ha. apply all_u8_spec; [vm_compute; reflexivity|].
    unfold is_u8. lia. }
  unfold lor_128_ok in H. apply orb_prop in H. destruct H as [H|H].
  - apply Z.leb_le in H. lia.
  - now apply Z.eqb_eq in H.
Qed.

Section Addressing.

Variable status : list BusEvent -> Z.

(** X7. [home] is [setCursor(1, 1)]: after an init with at least one
    column and one line it sends, in one transaction, the single command
    SETDDRAMADDR | 0 (0x80, not RETURNHOME) and changes no variable.
    While [numlines] is 0, as it is from power-up until [init] has run,
    [home] and every [setCursor] read [row_offsets[-1]]. *)
Theorem home_addresses_origin (cols lines col row : Z) (w w0 : World) :
  is_u8 cols -> 1 <= cols -> 1 <= lines ->
  numlines (lcd w0) = 0 -> 0 <= row ->
  I2C_LCD_home status (after_init w cols lines) =
    Done tt
      (mkWorld (lcd (after_init w cols lines))
         (bus (after_init w cols lines) ++
          bracket (command4bit_log I2C_LCD_ON I2C_LCD_SETDDRAMADDR))) /\
  I2C_LCD_home status w0 = Undefined /\
  I2C_LCD_setCursor status col row w0 = Undefined /\
  numlines lcd_reset = 0.
Proof.
  intros Hc Hc1 Hl Hn0 Hrow. split; [|split; [|split]].
  - unfold I2C_LCD_home.
    assert (Hidx : row_index (lcd (after_init w cols lines)) 1 = 0)
      by (rewrite row_index_after_init; lia).
    assert (Hoff : row_offsets_at (lcd (after_init w cols lines))
                     (row_index (lcd (after_init w cols lines)) 1) = Some 0)
      by (rewrite Hidx; reflexivity).
    rewrite (setCursor_defined status 1 1 0 _ Hoff).
    assert (Hcmd : ddram_command (lcd (after_init w cols lines)) 1 0 =
                   I2C_LCD_SETDDRAMADDR).
    { unfold ddram_command. rewrite limit_min. cbn [lcd after_init numcols init_state].
      replace (Z.min 1 cols - 1 + 0) with 0 by lia. reflexivity. }
    now rewrite Hcmd.
  - apply setCursor_undefined, row_offsets_at_outside.
    unfold row_index. rewrite limit_min, Hn0. lia.
  - apply setCursor_undefined, row_offsets_at_outside.
    unfold row_index. rewrite limit_min, Hn0. lia.
  - reflexivity.
Qed.

Lemma setCursor_after_init cols lines col row off w :
  1 <= col <= cols -> 1 <= row <= lines ->
  row_offsets_at (lcd (after_init w cols lines)) (row - 1) = Some off ->
  0 <= (col - 1) + off < 128 ->
  I2C_LCD_setCursor status col row (after_init w cols lines) =
    Done tt
      (mkWorld (lcd (after_init w cols lines))
         (bus (after_init w cols lines) ++
          bracket (command4bit_log I2C_LCD_ON (128 + ((col - 1) + off))))).
Proof.
  intros Hc Hr Hoff Ha.
  assert (Hidx : row_index (lcd (after_init w cols lines)) row = row - 1)
    by (rewrite row_index_after_init; lia).
  rewrite <- Hidx in Hoff.
  rewrite (setCursor_defined status col row off _ Hoff).
  assert (Hcmd : ddram_command (lcd (after_init w cols lines)) col off =
                 128 + ((col - 1) + off)).
  { unfold ddram_command. rewrite limit_min.
    cbn [lcd after_init numcols init_state].
    replace (Z.min col cols) with col by lia.
    now apply ddram_command_7bit. }
  now rewrite Hcmd.
Qed.

End Addressing.

(** X8. On a geometry whose rows fit the address space (one line of up to
    128 columns, two of up to 64, three or four of up to 32), every
    position of the display gets a DDRAM address of its own below 128,
    which [setCursor] sends untruncated as the command 0x80 + address. *)
Theorem cursor_positions_have_own_address (status : list BusEvent -> Z)
  (cols lines col row col' row' : Z) (w : World) :
  geometry_ok cols lines ->
  1 <= col <= cols -> 1 <= row <= lines ->
  1 <= col' <= cols -> 1 <= row' <= lines ->
  I2C_LCD_setCursor status col row (after_init w cols lines) =
    Done tt
      (mkWorld (lcd (after_init w cols lines))
         (bus (after_init w cols lines) ++
          bracket (command4bit_log I2C_LCD_ON
                     (0x80 + ddram_address cols col row)))) /\
  0 <= ddram_address cols col row < 128 /\
  (ddram_address cols col row = ddram_address cols col' row' ->
   col = col' /\ row = row').
Proof.
  unfold geometry_ok. intros (Hc1 & Hl & H1 & H2 & H3) Hc Hr Hc' Hr'.
  assert (Hwrap : (0x40 + cols) mod 256 = 0x40 + cols)
    by (apply Z.mod_small; lia).
  assert (Hrows : row = 1 \/ row = 2 \/ row = 3 \/ row = 4) by lia.
  assert (Hrows' : row' = 1 \/ row' = 2 \/ row' = 3 \/ row' = 4) by lia.
  split; [|split].
  - unfold ddram_address.
    destruct Hrows as [-> | [-> | [-> | ->]]]; cbn [Z.eqb Pos.eqb];
      apply setCursor_after_init; try lia; try reflexivity.
    transitivity (Some ((0x40 + cols) mod 256)); [reflexivity|].
    now rewrite Hwrap.
  - unfold ddram_address.
    destruct Hrows as [-> | [-> | [-> | ->]]]; cbn [Z.eqb Pos.eqb]; lia.
  - unfold ddram_address.
    destruct Hrows as [-> | [-> | [-> | ->]]];
      destruct Hrows' as [-> | [-> | [-> | ->]]]; cbn [Z.eqb Pos.eqb]; lia.
Qed.

Lemma cursor_positions_have_own_address_witness :
  geometry_ok 20 4 /\
  I2C_LCD_setCursor (fun _ => 1) 7 3 (after_init (mkWorld lcd_reset []) 20 4) =
    Done tt
      (mkWorld (init_state lcd_reset 20 4)
         (init_log 0x08 ++ bracket (command4bit_log I2C_LCD_ON 0x9A))).
Proof.
  assert (Hg : geometry_ok 20 4) by (unfold geometry_ok; lia).
  split; [exact Hg|].
  exact (proj1 (cursor_positions_have_own_address (fun _ => 1) 20 4 7 3 1 1
                  (mkWorld lcd_reset []) Hg ltac:(lia) ltac:(lia)
                  ltac:(lia) ltac:(lia))).
Defined.

Lemma home_addresses_origin_witness :
  is_u8 16 /\ 1 <= 16 /\ 1 <= 2 /\ numlines (lcd (mkWorld lcd_reset [])) = 0 /\
  0 <= 2 /\
  I2C_LCD_home (fun _ => 1) (after_init (mkWorld lcd_reset []) 16 2) =
    Done tt
      (mkWorld (init_state lcd_reset 16 2)
         (init_log 0x08 ++ bracket (command4bit_log I2C_LCD_ON 0x80))) /\
  I2C_LCD_setCursor (fun _ => 1) 3 2 (mkWorld lcd_reset []) = Undefined.
Proof.
  assert (H16 : is_u8 16) by (unfold is_u8; lia).
  assert (Hc : 1 <= 16) by lia.
  assert (Hl : 1 <= 2) by lia.
  assert (Hn : numlines (lcd (mkWorld lcd_reset [])) = 0) by reflexivity.
  assert (Hr : 0 <= 2) by lia.
  pose proof (home_addresses_origin (fun _ => 1) 16 2 3 2
                (mkWorld lcd_reset []) (mkWorld lcd_reset [])
                H16 Hc Hl Hn Hr) as (Hhome & _ & Hcur & _).
  repeat (split; [assumption|]). exact Hcur.
Defined.

(** X9. [setRowOffsets] only replaces the four row offsets, without any
    bus traffic, and the next [setCursor] uses them: for a position inside
    the geometry it sends SETDDRAMADDR | ((col - 1) + the offset given for
    that row), truncated to eight bits. *)
Theorem custom_row_offsets_take_effect (status : list BusEvent -> Z)
  (row1 row2 row3 row4 col row : Z) (w : World) :
  1 <= col <= numcols (lcd w) -> 1 <= row <= numlines (lcd w) -> row <= 4 ->
  I2C_LCD_setRowOffsets row1 row2 row3 row4 w =
    Done tt
      (mkWorld
         (mkLcd (backlight (lcd w)) (numlines (lcd w)) (numcols (lcd w))
            (displayfunction (lcd w)) (displaycontrol (lcd w))
            (displaymode (lcd w)) [# row1; row2; row3; row4])
         (bus w)) /\
  (I2C_LCD_setRowOffsets row1 row2 row3 row4 ;;
   I2C_LCD_setCursor status col row) w =
    Done tt
      (mkWorld
         (mkLcd (backlight (lcd w)) (numlines (lcd w)) (numcols (lcd w))
            (displayfunction (lcd w)) (displaycontrol (lcd w))
            (displaymode (lcd w)) [# row1; row2; row3; row4])
         (bus w ++
          bracket
            (command4bit_log (backlight (lcd w))
               ((Z.lor I2C_LCD_SETDDRAMADDR
                   ((col - 1) + custom_offset row1 row2 row3 row4 row))
                  mod 256)))).
Proof.
  intros Hc Hr Hr4.
  pose proof (setRowOffsets_run row1 row2 row3 row4 w) as Hset.
  split.
  { unfold yields in Hset. now rewrite app_nil_r in Hset. }
  set (s1 := op_state (OpSetRowOffsets row1 row2 row3 row4) (lcd w)) in *.
  assert (Hidx : row_index s1 row = row - 1)
    by (unfold row_index; rewrite limit_min; cbn [s1 op_state numlines]; lia).
  assert (Hoff : row_offsets_at s1 (row_index s1 row) =
                 Some (custom_offset row1 row2 row3 row4 row)).
  { rewrite Hidx. unfold custom_offset.
    assert (Hrows : row = 1 \/ row = 2 \/ row = 3 \/ row = 4) by lia.
    destruct Hrows as [-> | [-> | [-> | ->]]]; reflexivity. }
  eapply yields_eq.
  - eapply yields_bind; [exact Hset|].
    exact (setCursor_defined status col row _ (mkWorld s1 _) Hoff).
  - reflexivity.
  - cbn [app lcd]. unfold ddram_command. rewrite limit_min.
    cbn [s1 op_state numcols backlight].
    replace (Z.min col (numcols (lcd w))) with col by lia. reflexivity.
Qed.

Lemma custom_row_offsets_take_effect_witness :
  let w := after_init (mkWorld lcd_reset []) 16 4 in
  1 <= 3 <= numcols (lcd w) /\ 1 <= 4 <= numlines (lcd w) /\ 4 <= 4 /\
  (I2C_LCD_setRowOffsets 0x00 0x40 0x14 0x54 ;;
   I2C_LCD_setCursor (fun _ => 1) 3 4) w =
    Done tt
      (mkWorld
         (mkLcd 0xFF 4 16 0x08 0x04 0x02 [# 0x00; 0x40; 0x14; 0x54])
         (bus w ++ bracket (command4bit_log 0xFF 0xD6))).
Proof.
  intros w.
  assert (Hc : 1 <= 3 <= numcols (lcd w)) by (cbn; lia).
  assert (Hr : 1 <= 4 <= numlines (lcd w)) by (cbn; lia).
  assert (H4 : 4 <= 4) by lia.
  split; [exact Hc|]. split; [exact Hr|]. split; [exact H4|].
  exact (proj2 (custom_row_offsets_take_effect (fun _ => 1)
                  0x00 0x40 0x14 0x54 3 4 w Hc Hr H4)).
Defined.

(** ** Arrays handed to the driver *)

Section Arrays.

Variable status : list BusEvent -> Z.


Lemma createChar_loop_short (charmap : list Z) :
  (length charmap < 8)%nat ->
  forall (n i fuel : nat) (w : World),
    (i + n = length charmap)%nat -> (n < fuel)%nat ->
    I2C_LCD_createChar_loop status fuel charmap (Z.of_nat i) w = Undefined.
Proof.
  intros Hlen. induction n as [|n IH]; intros i fuel w Hi Hfuel;
    (destruct fuel as [|fuel]; [lia|]); cbn [I2C_LCD_createChar_loop];
    (destruct (Z.ltb_spec (Z.of_nat i) 8); [|lia]); rewrite Nat2Z.id.
  - now rewrite lookup_ge_None_2 by lia.
  - destruct (lookup_lt_is_Some_2 charmap i) as [row Hrow]; [lia|].
    rewrite Hrow. unfold bind.
    rewrite (yields_write status (u8 (Z.land row 0x1F)) w).
    rewrite u8_succ by lia. apply (IH (S i) fuel); lia.
Qed.

Lemma createChar_loop_take (charmap : list Z) : forall fuel i w,
  I2C_LCD_createChar_loop status fuel charmap i w =
  I2C_LCD_createChar_loop status fuel (take 8 charmap) i w.
Proof.
  induction fuel as [|fuel IH]; intros i w; [reflexivity|].
  cbn [I2C_LCD_createChar_loop].
  destruct (Z.ltb_spec i 8); [|reflexivity].
  rewrite lookup_take_lt by lia.
  destruct (charmap !! Z.to_nat i) as [row|]; [|reflexivity].
  unfold bind.
  destruct (I2C_LCD_write status (u8 (Z.land row 0x1F)) w); try reflexivity.
  apply IH.
Qed.

End Arrays.

(** X10. For an array with fewer than 256 characters before its first NUL
    [print] returns, having opened one transaction, written each of these
    characters once and in order, and stopped; for the empty string the
    transaction holds no write.  No variable changes. *)
Theorem print_writes_each_character (status : list BusEvent -> Z)
  (fuel : nat) (c : list Z) (w : World) :
  terminated c ->
  (length (c_string c) < 256)%nat ->
  (length (c_string c) < fuel)%nat ->
  I2C_LCD_print status fuel c w =
    Done tt
      (mkWorld (lcd w)
         (bus w ++
          [EvStartWait I2C_LCD_ADDRESS] ++
          concat (map (fun ch => write_log (backlight (lcd w)) (ch mod 256))
                      (c_string c)) ++
          [EvStop])) /\
  (c_string c = [] ->
   I2C_LCD_print status fuel c w =
     Done tt (mkWorld (lcd w) (bus w ++ [EvStartWait I2C_LCD_ADDRESS; EvStop]))).
Proof.
  intros Hin Hlen Hfuel.
  pose proof (print_sends_string status fuel c w Hin Hlen Hfuel) as H.
  unfold bracket, writes_log in H. rewrite map_map in H.
  split; [exact H|]. intros Hnil. rewrite Hnil in H. exact H.
Qed.

Lemma print_writes_each_character_witness :
  terminated [0x48; 0x69; 0] /\
  I2C_LCD_print (fun _ => 1) 3 [0x48; 0x69; 0] (mkWorld lcd_reset []) =
    Done tt
      (mkWorld lcd_reset
         ([EvStartWait 0x4E] ++
          (write_log 0 0x48 ++ write_log 0 0x69 ++ []) ++ [EvStop])).
Proof.
  assert (Ht : terminated [0x48; 0x69; 0])
    by (unfold terminated; cbn [In]; tauto).
  split; [exact Ht|].
  exact (proj1 (print_writes_each_character (fun _ => 1) 3 [0x48; 0x69; 0]
                  (mkWorld lcd_reset []) Ht ltac:(cbn; lia) ltac:(cbn; lia))).
Defined.



(** X12. [createChar] reads exactly the rows 0 to 7 of the glyph: rows
    beyond the eighth are never looked at, and a glyph of fewer than eight
    rows is read behind its end (after the rows it has were written). *)
Theorem createChar_reads_eight_rows (status : list BusEvent -> Z)
  (location : Z) (charmap : list Z) (w : World) :
  I2C_LCD_createChar status location charmap w =
    I2C_LCD_createChar status location (take 8 charmap) w /\
  ((length charmap < 8)%nat ->
   I2C_LCD_createChar status location charmap w = Undefined).
Proof.
  split.
  - unfold I2C_LCD_createChar, bind, I2C_startWait. cbv zeta.
    destruct (I2C_LCD_command4bit status _ _); try reflexivity.
    now rewrite createChar_loop_take.
  - intros Hlen. unfold I2C_LCD_createChar, bind, I2C_startWait. cbv zeta.
    rewrite (yields_command4bit status _ (emit _ w)).
    now rewrite (createChar_loop_short status charmap Hlen
                   (length charmap) 0 9 _ eq_refl ltac:(lia)).
Qed.

Lemma createChar_reads_eight_rows_witness :
  (length [0x1F; 0x11; 0x1F] < 8)%nat /\
  I2C_LCD_createChar (fun _ => 1) 0 [0x1F; 0x11; 0x1F] (mkWorld lcd_reset []) =
    Undefined.
Proof.
  assert (H : (length [0x1F; 0x11; 0x1F] < 8)%nat) by (cbn; lia).
  split; [exact H|].
  exact (proj2 (createChar_reads_eight_rows (fun _ => 1) 0 [0x1F; 0x11; 0x1F]
                  (mkWorld lcd_reset [])) H).
Defined.

(** ** One character *)

(** X13. [printChar(c)] is [print] of the one-character string, for every
    character but NUL: [printChar(0)] writes the data byte 0 (the first
    custom glyph), which [print] can never send, a NUL ending its
    string. *)
Theorem printChar_is_print_of_one (status : list BusEvent -> Z) (c : Z)
  (fuel : nat) (rest : list Z) (w : World) :
  (c <> 0 ->
   I2C_LCD_print status (S (S fuel)) (c :: 0 :: rest) w =
   I2C_LCD_printChar status c w) /\
  I2C_LCD_printChar status 0 w =
    Done tt (mkWorld (lcd w)
               (bus w ++ bracket (write_log (backlight (lcd w)) 0))) /\
  I2C_LCD_print status (S fuel) (0 :: rest) w =
    Done tt (mkWorld (lcd w) (bus w ++ bracket [])).
Proof.
  split; [|split].
  - intros Hc. rewrite (printChar_run status c w).
    assert (Hs : c_string (c :: 0 :: rest) = [c]).
    { cbn [c_string]. destruct (Z.eqb_spec c 0); [contradiction|reflexivity]. }
    rewrite (print_sends_string status (S (S fuel)) (c :: 0 :: rest) w).
    + rewrite Hs. cbn [map writes_log concat]. now rewrite app_nil_r.
    + unfold terminated. cbn [In]. tauto.
    + rewrite Hs. cbn. lia.
    + rewrite Hs. cbn. lia.
  - exact (printChar_run status 0 w).
  - exact (print_empty status fuel rest w).
Qed.

Lemma printChar_is_print_of_one_witness :
  0x21 <> 0 /\
  I2C_LCD_print (fun _ => 1) 2 [0x21; 0] (mkWorld lcd_reset []) =
  I2C_LCD_printChar (fun _ => 1) 0x21 (mkWorld lcd_reset []).
Proof.
  assert (H : 0x21 <> 0) by lia. split; [exact H|].
  exact (proj1 (printChar_is_print_of_one (fun _ => 1) 0x21 0 []
                  (mkWorld lcd_reset [])) H).
Defined.

(** ** Initialising again *)

Lemma two_line_sticky df :
  is_u8 df ->
  u8 (Z.lor (u8 (Z.lor df I2C_LCD_2LINE)) I2C_LCD_2LINE) =
  Z.lor df I2C_LCD_2LINE.
Proof.
  intros Hdf. apply Z.eqb_eq. fold (two_line_ok df). revert df Hdf.
  apply all_u8_spec. vm_compute. reflexivity.
Qed.

(** X14. [init] restores the defaults of the attributes (backlight on,
    display on, cursor and blink off, left entry without shift) and the
    geometry of its arguments, but it never clears the two-line bit of
    [displayfunction]: once an init with more than one line has run, an
    init with any [lines], one included, leaves the bit set. *)
Theorem init_keeps_two_line_bit (status : list BusEvent -> Z)
  (cols1 lines1 cols2 lines2 : Z) (w : World) :
  is_u8 cols1 -> is_u8 cols2 -> is_u8 (displayfunction (lcd w)) ->
  1 < lines1 ->
  exists w2,
    (I2C_LCD_init status cols1 lines1 ;; I2C_LCD_init status cols2 lines2) w =
      Done tt w2 /\
    displayfunction (lcd w2) = Z.lor (displayfunction (lcd w)) I2C_LCD_2LINE /\
    Z.testbit (displayfunction (lcd w2)) 3 = true /\
    backlight (lcd w2) = I2C_LCD_ON /\
    displaycontrol (lcd w2) = I2C_LCD_DISPLAY /\
    displaymode (lcd w2) = I2C_LCD_ENTRYLEFT /\
    numlines (lcd w2) = lines2 /\
    numcols (lcd w2) = cols2.
Proof.
  intros Hc1 Hc2 Hdf Hl1.
  exists (after_init (after_init w cols1 lines1) cols2 lines2).
  assert (Hfun : init_displayfunction
                   (init_displayfunction (displayfunction (lcd w)) lines1)
                   lines2 =
                 Z.lor (displayfunction (lcd w)) I2C_LCD_2LINE).
  { unfold init_displayfunction.
    destruct (Z.ltb_spec 1 lines1); [|lia].
    destruct (1 <? lines2).
    - now apply two_line_sticky.
    - apply u8_lor; [exact Hdf|]. unfold is_u8, I2C_LCD_2LINE. lia. }
  split.
  { unfold bind. rewrite (init_after status cols1 lines1 w Hc1).
    exact (init_after status cols2 lines2 _ Hc2). }
  cbn [lcd after_init init_state backlight numlines numcols displayfunction
       displaycontrol displaymode].
  rewrite Hfun. repeat split.
  rewrite Z.lor_spec. change (Z.testbit I2C_LCD_2LINE 3) with true.
  apply orb_true_r.
Qed.

Lemma init_keeps_two_line_bit_witness :
  is_u8 16 /\ is_u8 (displayfunction (lcd (mkWorld lcd_reset []))) /\ 1 < 2 /\
  exists w2,
    (I2C_LCD_init (fun _ => 1) 16 2 ;; I2C_LCD_init (fun _ => 1) 16 1)
      (mkWorld lcd_reset []) = Done tt w2 /\
    displayfunction (lcd w2) = 0x08.
Proof.
  assert (H16 : is_u8 16) by (unfold is_u8; lia).
  assert (Hdf : is_u8 (displayfunction (lcd (mkWorld lcd_reset []))))
    by (cbn; unfold is_u8; lia).
  assert (Hl : 1 < 2) by lia.
  split; [exact H16|]. split; [exact Hdf|]. split; [exact Hl|].
  destruct (init_keeps_two_line_bit (fun _ => 1) 16 2 16 1
              (mkWorld lcd_reset []) H16 H16 Hdf Hl)
    as (w2 & Hrun & Hfun & _).
  exists w2. split; [exact Hrun|]. rewrite Hfun. reflexivity.
Defined.

(** ** What the controller is handed *)

Lemma nibbles_ok_truthy rs bl c :
  nibbles_ok rs bl c = nibbles_ok rs (if truthy bl then 1 else 0) c.
Proof. unfold nibbles_ok, strobe_hi. now destruct (truthy bl). Qed.

Lemma nibbles_ok_all rs bl c : is_u8 c -> nibbles_ok rs bl c = true.
Proof.
  rewrite nibbles_ok_truthy. revert c.
  destruct rs; destruct (truthy bl); apply all_u8_spec; vm_compute;
    reflexivity.
Qed.

(** X15. A byte travels as two nibbles that recombine to it: of the bytes
    [write(c)] puts on the bus, the upper four bits of the first strobe
    and the upper four bits of the second, moved down, make up [c], and
    both strobes carry the register-select bit (data).  The same holds of
    [command4bit(c)], with register-select clear on both (command). *)
Theorem nibbles_recombine (status : list BusEvent -> Z) (c : Z) (w : World) :
  is_u8 c ->
  (exists h1 l1 h2 l2,
     I2C_LCD_write status c w =
       Done tt
         (mkWorld (lcd w)
            (bus w ++ [EvWrite h1; EvWrite l1; EvDelayUs 100;
                       EvWrite h2; EvWrite l2; EvDelayUs 100])) /\
     Z.lor (Z.land h1 0xF0) (Z.shiftr h2 4) = c /\
     Z.testbit h1 0 = true /\ Z.testbit h2 0 = true) /\
  (exists h1 l1 h2 l2,
     I2C_LCD_command4bit status c w =
       Done tt
         (mkWorld (lcd w)
            (bus w ++ [EvWrite h1; EvWrite l1; EvDelayUs 100;
                       EvWrite h2; EvWrite l2; EvDelayUs 100])) /\
     Z.lor (Z.land h1 0xF0) (Z.shiftr h2 4) = c /\
     Z.testbit h1 0 = false /\ Z.testbit h2 0 = false).
Proof.
  intros Hc. split.
  - pose proof (nibbles_ok_all true (backlight (lcd w)) c Hc) as H.
    unfold nibbles_ok in H. cbv zeta in H.
    apply andb_prop in H. destruct H as [H H2].
    apply andb_prop in H. destruct H as [H H1].
    apply Z.eqb_eq in H. apply eqb_prop in H1, H2.
    eexists _, _, _, _. split; [apply yields_write|].
    split; [exact H|]. split; [exact H1|exact H2].
  - pose proof (nibbles_ok_all false (backlight (lcd w)) c Hc) as H.
    unfold nibbles_ok in H. cbv zeta in H.
    apply andb_prop in H. destruct H as [H H2].
    apply andb_prop in H. destruct H as [H H1].
    apply Z.eqb_eq in H. apply eqb_prop in H1, H2.
    eexists _, _, _, _. split; [apply yields_command4bit|].
    split; [exact H|]. split; [exact H1|exact H2].
Qed.

Lemma nibbles_recombine_witness :
  is_u8 0x41 /\
  exists h1 l1 h2 l2,
    I2C_LCD_write (fun _ => 1) 0x41 (mkWorld lcd_reset []) =
      Done tt
        (mkWorld lcd_reset
           [EvWrite h1; EvWrite l1; EvDelayUs 100;
            EvWrite h2; EvWrite l2; EvDelayUs 100]) /\
    Z.lor (Z.land h1 0xF0) (Z.shiftr h2 4) = 0x41.
Proof.
  assert (H : is_u8 0x41) by (unfold is_u8; lia). split; [exact H|].
  destruct (proj1 (nibbles_recombine (fun _ => 1) 0x41
                     (mkWorld lcd_reset []) H))
    as (h1 & l1 & h2 & l2 & Hrun & Hc & _).
  exists h1, l1, h2, l2. split; [exact Hrun|exact Hc].
Defined.

Lemma low_nibble_shifted c :
  u8 (Z.land (u8 (Z.shiftl c 4)) 0xF0) = u8 (Z.shiftl c 4).
Proof.
  rewrite u8_high_nibble. apply Z.bits_inj'. intros i Hi.
  rewrite Z.land_spec.
  destruct (Z.lt_ge_cases i 4) as [H4|H4].
  { rewrite testbit_u8_low, Z.shiftl_spec_low by lia. reflexivity. }
  destruct (Z.lt_ge_cases i 8) as [H8|H8].
  - assert (Hcases : In i [4; 5; 6; 7]) by (cbn [In]; lia).
    cbn [In] in Hcases.
    destruct Hcases as [<- | [<- | [<- | [<- | []]]]];
      change (Z.testbit 0xF0 _) with true; apply andb_true_r.
  - rewrite (is_u8_testbit_high (u8 _)) by (auto using u8_is_u8).
    reflexivity.
Qed.

(** X16. [command8bit(c)] strobes the upper nibble of [c] and nothing of
    the lower: two commands with the same upper nibble put the same bytes
    on the bus, and [command4bit(c)] is [command8bit(c)] followed by
    [command8bit] of [c] moved up four bits. *)
Theorem command8bit_sends_upper_nibble (status : list BusEvent -> Z)
  (c c' : Z) (w : World) :
  I2C_LCD_command8bit status c w =
    Done tt (mkWorld (lcd w)
               (bus w ++ push_log (backlight (lcd w)) (Z.land c 0xF0))) /\
  (Z.land c 0xF0 = Z.land c' 0xF0 ->
   I2C_LCD_command8bit status c w = I2C_LCD_command8bit status c' w) /\
  I2C_LCD_command4bit status c w =
    (I2C_LCD_command8bit status c ;;
     I2C_LCD_command8bit status (Z.shiftl c 4 mod 256)) w.
Proof.
  split; [|split].
  - rewrite <- u8_high_nibble. apply yields_command8bit.
  - intros H. unfold I2C_LCD_command8bit. now rewrite H.
  - unfold I2C_LCD_command4bit, I2C_LCD_command8bit.
    fold (u8 (Z.shiftl c 4)). now rewrite low_nibble_shifted.
Qed.

Lemma command8bit_sends_upper_nibble_witness :
  Z.land 0x30 0xF0 = Z.land 0x3F 0xF0 /\
  I2C_LCD_command8bit (fun _ => 1) 0x30 (mkWorld lcd_reset []) =
  I2C_LCD_command8bit (fun _ => 1) 0x3F (mkWorld lcd_reset []).
Proof.
  assert (H : Z.land 0x30 0xF0 = Z.land 0x3F 0xF0) by reflexivity.
  split; [exact H|].
  exact (proj1 (proj2 (command8bit_sends_upper_nibble (fun _ => 1) 0x30 0x3F
                         (mkWorld lcd_reset []))) H).
Defined.

(** ** Sequences of calls *)

Section Sequences.

Variable status : list BusEvent -> Z.

Lemma run_ops_numlines fuel ops : forall w w',
  forallb (fun op => negb (is_init op)) ops = true ->
  run_ops status fuel ops w = Done tt w' ->
  numlines (lcd w') = numlines (lcd w).
Proof.
  induction ops as [|op ops IH]; intros w w' Hops Hrun.
  - cbn [run_ops] in Hrun. unfold ret in Hrun. now injection Hrun as <-.
  - cbn [forallb] in Hops. apply andb_prop in Hops. destruct Hops as [Hop Hops].
    cbn [run_ops] in Hrun. unfold bind in Hrun.
    destruct (run_op status fuel op w) as [[] w1| |] eqn:E; try discriminate.
    rewrite (IH w1 w' Hops Hrun).
    rewrite (op_state_effect status fuel op w w1 E).
    destruct op; try reflexivity. discriminate Hop.
Qed.

End Sequences.

(** X17. Once [init] has run with one to four lines, no sequence of other
    calls of the interface can take [setCursor] out of [row_offsets]:
    whenever the sequence returns, [setCursor(col, row)] with [row >= 1]
    reads a row offset inside the array and sends its command. *)
Theorem cursor_stays_inside_array (status : list BusEvent -> Z) (fuel : nat)
  (cols lines col row : Z) (ops : list Op) (w w2 : World) :
  is_u8 cols -> 1 <= lines <= 4 -> 1 <= row ->
  forallb (fun op => negb (is_init op)) ops = true ->
  (I2C_LCD_init status cols lines ;; run_ops status fuel ops) w = Done tt w2 ->
  numlines (lcd w2) = lines /\
  exists off,
    row_offsets_at (lcd w2) (Z.min row lines - 1) = Some off /\
    I2C_LCD_setCursor status col row w2 =
      Done tt
        (mkWorld (lcd w2)
           (bus w2 ++
            bracket
              (command4bit_log (backlight (lcd w2))
                 ((Z.lor I2C_LCD_SETDDRAMADDR
                     ((Z.min col (numcols (lcd w2)) - 1) + off)) mod 256)))).
Proof.
  intros Hc Hl Hr Hops Hrun.
  unfold bind in Hrun. rewrite (init_after status cols lines w Hc) in Hrun.
  pose proof (run_ops_numlines status fuel ops _ _ Hops Hrun) as Hn.
  cbn [lcd after_init init_state numlines] in Hn.
  split; [exact Hn|].
  assert (Hidx : row_index (lcd w2) row = Z.min row lines - 1)
    by (unfold row_index; now rewrite limit_min, Hn).
  destruct (proj2 (row_offsets_at_bounds (lcd w2) (row_index (lcd w2) row)))
    as [off Hoff]; [lia|].
  exists off. split; [now rewrite <- Hidx|].
  rewrite (setCursor_defined status col row off w2 Hoff).
  unfold ddram_command, u8. now rewrite limit_min.
Qed.

Lemma cursor_stays_inside_array_witness :
  let ops := [OpCursor 1; OpSetRowOffsets 0 0x40 0x14 0x54] in
  is_u8 20 /\ 1 <= 4 <= 4 /\ 1 <= 9 /\
  forallb (fun op => negb (is_init op)) ops = true /\
  exists w2,
    (I2C_LCD_init (fun _ => 1) 20 4 ;; run_ops (fun _ => 1) 0 ops)
      (mkWorld lcd_reset []) = Done tt w2 /\
    numlines (lcd w2) = 4.
Proof.
  intros ops.
  assert (H20 : is_u8 20) by (unfold is_u8; lia).
  assert (Hl : 1 <= 4 <= 4) by lia.
  assert (Hr : 1 <= 9) by lia.
  assert (Hops : forallb (fun op => negb (is_init op)) ops = true)
    by reflexivity.
  do 4 (split; [assumption|]).
  assert (Hex : exists w2,
            (I2C_LCD_init (fun _ => 1) 20 4 ;; run_ops (fun _ => 1) 0 ops)
              (mkWorld lcd_reset []) = Done tt w2).
  { eexists. unfold bind at 1.
    rewrite (init_after (fun _ => 1) 20 4 (mkWorld lcd_reset []) H20).
    unfold ops. cbn [run_ops run_op]. unfold bind at 1.
    pose proof (toggle_run (fun _ => 1) TCursor 1
                  (after_init (mkWorld lcd_reset []) 20 4)) as Hcur.
    unfold yields, run_toggle in Hcur. rewrite Hcur.
    unfold bind at 1. rewrite setRowOffsets_run. reflexivity. }
  destruct Hex as (w2 & Hrun).
  exists w2. split; [exact Hrun|].
  exact (proj1 (cursor_stays_inside_array (fun _ => 1) 0 20 4 1 9 ops
                  (mkWorld lcd_reset []) w2 H20 Hl Hr Hops Hrun)).
Defined.

(** ** Bytes and waiting time *)

Lemma bytes_written_app t1 t2 :
  bytes_written (t1 ++ t2) = bytes_written t1 + bytes_written t2.
Proof.
  induction t1 as [|e t1 IH]; [reflexivity|].
  destruct e; cbn [app bytes_written]; lia.
Qed.

Lemma waited_us_app t1 t2 :
  waited_us (t1 ++ t2) = waited_us t1 + waited_us t2.
Proof.
  induction t1 as [|e t1 IH]; [reflexivity|].
  destruct e; cbn [app waited_us]; lia.
Qed.

Section Cost.

Variable status : list BusEvent -> Z.
Variable l0 : list BusEvent.

Lemma cost_emit b u e w :
  cost_at l0 b u w ->
  cost_at l0 (b + bytes_written [e]) (u + waited_us [e]) (emit e w).
Proof.
  intros (t & Hbus & Hb & Hu). exists (t ++ [e]). unfold emit. cbn [bus].
  rewrite Hbus, app_assoc, bytes_written_app, waited_us_app, Hb, Hu.
  repeat split.
Qed.

Lemma cost_startWait b u a :
  hoare (cost_at l0 b u) (I2C_startWait status a) (cost_at l0 b u).
Proof.
  unfold hoare, I2C_startWait. intros w x w' H [= _ <-].
  apply (cost_emit b u (EvStartWait a)) in H.
  cbn [bytes_written waited_us] in H. now rewrite !Z.add_0_r in H.
Qed.

Lemma cost_stop b u : hoare (cost_at l0 b u) I2C_stop (cost_at l0 b u).
Proof.
  unfold hoare, I2C_stop. intros w x w' H [= _ <-].
  apply (cost_emit b u EvStop) in H.
  cbn [bytes_written waited_us] in H. now rewrite !Z.add_0_r in H.
Qed.

Lemma cost_delay_us b u n :
  hoare (cost_at l0 b u) (_delay_us n) (cost_at l0 b (u + n)).
Proof.
  unfold hoare, _delay_us. intros w x w' H [= _ <-].
  apply (cost_emit b u (EvDelayUs n)) in H.
  cbn [bytes_written waited_us] in H. now rewrite !Z.add_0_r in H.
Qed.

Lemma cost_delay_ms b u n :
  hoare (cost_at l0 b u) (_delay_ms n) (cost_at l0 b (u + 1000 * n)).
Proof.
  unfold hoare, _delay_ms. intros w x w' H [= _ <-].
  apply (cost_emit b u (EvDelayMs n)) in H.
  cbn [bytes_written waited_us] in H. now rewrite !Z.add_0_r in H.
Qed.

Lemma cost_modify b u f :
  hoare (cost_at l0 b u) (modify f) (cost_at l0 b u).
Proof. apply hoare_modify. intros w H. exact H. Qed.

Lemma cost_push b u d :
  hoare (cost_at l0 b u) (I2C_LCD_push status d)
        (cost_at l0 (b + 2) (u + 100)).
Proof.
  intros w x w' (t & Hbus & Hb & Hu) Hrun.
  rewrite (yields_push status d w) in Hrun. injection Hrun as Hw. subst w'.
  exists (t ++ push_log (backlight (lcd w)) d). cbn [bus].
  rewrite Hbus, app_assoc, bytes_written_app, waited_us_app, Hb, Hu.
  repeat split.
Qed.

Lemma cost_eq {A} (P : World -> Prop) (m : Drv A) b u b' u' :
  hoare P m (cost_at l0 b u) -> b = b' -> u = u' ->
  hoare P m (cost_at l0 b' u').
Proof. now intros H <- <-. Qed.

Lemma cost_command8bit b u c :
  hoare (cost_at l0 b u) (I2C_LCD_command8bit status c)
        (cost_at l0 (b + 2) (u + 100)).
Proof. apply cost_push. Qed.

Lemma cost_command4bit b u c :
  hoare (cost_at l0 b u) (I2C_LCD_command4bit status c)
        (cost_at l0 (b + 4) (u + 200)).
Proof.
  unfold I2C_LCD_command4bit. eapply cost_eq.
  - eapply hoare_bind; [apply cost_push|]. intros _. apply cost_push.
  - lia.
  - lia.
Qed.

Lemma cost_write b u c :
  hoare (cost_at l0 b u) (I2C_LCD_write status c)
        (cost_at l0 (b + 4) (u + 200)).
Proof.
  unfold I2C_LCD_write. eapply cost_eq.
  - eapply hoare_bind; [apply cost_push|]. intros _. apply cost_push.
  - lia.
  - lia.
Qed.

Lemma cost_setCursorWOI2C b u col row :
  hoare (cost_at l0 b u) (I2C_LCD_setCursorWOI2C status col row)
        (cost_at l0 (b + 4) (u + 200)).
Proof.
  unfold I2C_LCD_setCursorWOI2C.
  eapply hoare_bind; [apply hoare_get|]. intros nc.
  eapply hoare_bind; [apply hoare_get|]. intros nl.
  eapply hoare_bind; [apply hoare_get|]. intros ro.
  destruct ro; [apply cost_command4bit|apply hoare_undefined].
Qed.

(** From row [i] on the loop of [createChar] writes the rows up to the
    eighth. *)
Lemma cost_createChar_loop charmap : forall fuel i b u,
  0 <= i <= 8 ->
  hoare (cost_at l0 b u) (I2C_LCD_createChar_loop status fuel charmap i)
        (cost_at l0 (b + 4 * (8 - i)) (u + 200 * (8 - i))).
Proof.
  induction fuel as [|fuel IH]; intros i b u Hi;
    cbn [I2C_LCD_createChar_loop].
  - apply hoare_out_of_fuel.
  - destruct (Z.ltb_spec i 8).
    + destruct (charmap !! Z.to_nat i); [|apply hoare_undefined].
      eapply cost_eq.
      * eapply hoare_bind; [apply cost_write|]. intros _.
        apply IH. unfold u8. rewrite Z.mod_small; lia.
      * unfold u8. rewrite Z.mod_small; lia.
      * unfold u8. rewrite Z.mod_small; lia.
    + eapply cost_eq; [apply hoare_ret| |]; lia.
Qed.

Ltac cost_auto :=
  repeat lazymatch goal with
         | |- hoare _ (bind _ _) _ => eapply hoare_bind; [|intros ?]
         | |- hoare _ (I2C_startWait _ _) _ => apply cost_startWait
         | |- hoare _ I2C_stop _ => apply cost_stop
         | |- hoare _ (_delay_us _) _ => apply cost_delay_us
         | |- hoare _ (_delay_ms _) _ => apply cost_delay_ms
         | |- hoare _ (modify _) _ => apply cost_modify
         | |- hoare _ (get _) _ => apply hoare_get
         | |- hoare _ (ret _) _ => apply hoare_ret
         | |- hoare _ (if ?c then _ else _) _ => destruct c
         | |- hoare _ (I2C_LCD_push _ _) _ => apply cost_push
         | |- hoare _ (I2C_LCD_command4bit _ _) _ => apply cost_command4bit
         | |- hoare _ (I2C_LCD_command8bit _ _) _ => apply cost_command8bit
         | |- hoare _ (I2C_LCD_write _ _) _ => apply cost_write
         | |- hoare _ (I2C_LCD_createChar_loop _ _ _ _) _ =>
             apply cost_createChar_loop; lia
         | |- hoare _ (I2C_LCD_setCursorWOI2C _ _ _) _ =>
             apply cost_setCursorWOI2C
         end.

Lemma cost_op fuel op b u :
  op_cost op = Some (b, u) ->
  hoare (cost_at l0 0 0) (run_op status fuel op) (cost_at l0 b u).
Proof.
  intros Hop. destruct op; cbn [op_cost] in Hop; try discriminate Hop;
    injection Hop as <- <-; cbn [run_op];
    unfold I2C_LCD_init, I2C_LCD_setRowOffsets, I2C_LCD_clear, I2C_LCD_home,
      I2C_LCD_setCursor, I2C_LCD_printChar, I2C_LCD_display,
      I2C_LCD_backlight, I2C_LCD_blink, I2C_LCD_cursor, I2C_LCD_leftToRight,
      I2C_LCD_rightToLeft, I2C_LCD_scrollDisplayLeft,
      I2C_LCD_scrollDisplayRight, I2C_LCD_cursorFixPosition,
      I2C_LCD_createChar;
    (eapply cost_eq; [cost_auto|reflexivity|reflexivity]).
Qed.

End Cost.

Lemma cost_writes_log bl cs :
  bytes_written (writes_log bl cs) = 4 * Z.of_nat (length cs) /\
  waited_us (writes_log bl cs) = 200 * Z.of_nat (length cs).
Proof.
  induction cs as [|c cs [IHb IHu]]; [split; reflexivity|].
  rewrite writes_log_cons, bytes_written_app, waited_us_app, IHb, IHu.
  cbn [length]. rewrite Nat2Z.inj_succ.
  change (bytes_written (write_log bl c)) with 4.
  change (waited_us (write_log bl c)) with 200. lia.
Qed.

(** X18. What a call puts on the bus and how long it waits does not
    depend on its arguments or on the driver state.  Whenever it returns,
    [init] has written 24 bytes and waited 45850 us; every function that
    sends one command or one character ([clear], [home], [setCursor],
    [setCursorWOI2C], [printChar], the attribute functions, the two
    scrolls, [write], [command4bit]) 4 bytes and 200 us; [createChar] 36
    bytes and 1800 us; [command8bit] and [push] 2 bytes and 100 us;
    [setRowOffsets] nothing.  [print] writes 4 bytes and waits 200 us for
    each character of its string. *)
Theorem calls_cost (status : list BusEvent -> Z) (fuel : nat) (op : Op)
  (b u : Z) (c : list Z) (w w' : World) :
  (op_cost op = Some (b, u) ->
   run_op status fuel op w = Done tt w' ->
   exists t,
     bus w' = bus w ++ t /\ bytes_written t = b /\ waited_us t = u) /\
  (terminated c ->
   (length (c_string c) < 256)%nat ->
   (length (c_string c) < fuel)%nat ->
   exists t,
     I2C_LCD_print status fuel c w = Done tt (mkWorld (lcd w) (bus w ++ t)) /\
     bytes_written t = 4 * Z.of_nat (length (c_string c)) /\
     waited_us t = 200 * Z.of_nat (length (c_string c))).
Proof.
  split.
  - intros Hop Hrun.
    apply (cost_op status (bus w) fuel op b u Hop w tt w'); [|exact Hrun].
    exists []. rewrite app_nil_r. repeat split.
  - intros Hin Hlen Hfuel. eexists.
    split; [exact (print_sends_string status fuel c w Hin Hlen Hfuel)|].
    unfold bracket.
    rewrite !bytes_written_app, !waited_us_app.
    destruct (cost_writes_log (backlight (lcd w)) (map u8 (c_string c)))
      as [Hb Hu].
    rewrite Hb, Hu, length_map. cbn [bytes_written waited_us]. lia.
Qed.

Lemma calls_cost_witness :
  op_cost (OpInit 16 2) = Some (24, 45850) /\
  run_op (fun _ => 1) 0 (OpInit 16 2) (mkWorld lcd_reset []) =
    Done tt (after_init (mkWorld lcd_reset []) 16 2) /\
  exists t,
    bus (after_init (mkWorld lcd_reset []) 16 2) = [] ++ t /\
    bytes_written t = 24 /\ waited_us t = 45850.
Proof.
  assert (Hrun : run_op (fun _ => 1) 0 (OpInit 16 2) (mkWorld lcd_reset []) =
                 Done tt (after_init (mkWorld lcd_reset []) 16 2)).
  { apply (init_after (fun _ => 1) 16 2). unfold is_u8. lia. }
  split; [reflexivity|]. split; [exact Hrun|].
  exact (proj1 (calls_cost (fun _ => 1) 0 (OpInit 16 2) 24 45850 []
                  (mkWorld lcd_reset [])
                  (after_init (mkWorld lcd_reset []) 16 2)) eq_refl Hrun).
Defined.
